(** * EVOS AI: the ReAct agent loop and the LLM engine manager

    A shallow embedding of [src/ai/agent.py] (classes [AgentState],
    [AgentStep], [AgentTask], [Agent]) and of [src/ai/llm_engine.py]
    (classes [OllamaEngine], [LLMEngine]) together with the part of
    [src/ai/gemini_engine.py] that [LLMEngine.switch_mode] calls.

    The coroutines are modelled by explicit state passing.  Everything
    the loop awaits (the provider, the per-step callback, the tool
    executor) is outside the repository's decision logic, so a run is
    driven by a script that says, for each step number, what each awaited
    call produced and whether [Agent.stop] was invoked while the loop was
    suspended in it. *)

From Stdlib Require Import List String Ascii ZArith Bool Lia Arith.
From Stdlib Require Import DecimalString.
Import ListNotations.
Open Scope string_scope.
Set Warnings "-register-all".

(** ** Python values

    The values [json.loads] produces.  [PNone] is Python's [None], which
    is both the JSON [null] and the default of [dict.get].  Dictionaries
    are association lists in insertion order with distinct keys being the
    producer's business; JSON numbers are restricted to integers. *)

Inductive pyval : Type :=
| PNone : pyval
| PBool : bool -> pyval
| PInt : Z -> pyval
| PStr : string -> pyval
| PList : list pyval -> pyval
| PDict : list (string * pyval) -> pyval.

(** [bool(v)]: Python truthiness, as used by [if step.action and ...]. *)
Definition truthy (v : pyval) : bool :=
  match v with
  | PNone => false
  | PBool b => b
  | PInt z => negb (z =? 0)%Z
  | PStr s => negb (String.eqb s "")
  | PList l => match l with [] => false | _ => true end
  | PDict d => match d with [] => false | _ => true end
  end.

(** [v == s] for a [str] literal [s]: only a [str] can be equal to it. *)
Definition eq_str (v : pyval) (s : string) : bool :=
  match v with
  | PStr t => String.eqb t s
  | _ => false
  end.

(** [v is None]. *)
Definition is_None (v : pyval) : bool :=
  match v with
  | PNone => true
  | _ => false
  end.

(** [d.get(k)] on the association list of a [dict]. *)
Fixpoint dict_lookup (k : string) (d : list (string * pyval)) : option pyval :=
  match d with
  | [] => None
  | (k', v) :: d' => if String.eqb k' k then Some v else dict_lookup k d'
  end.

(** [d.get(k, dflt)]. *)
Definition dict_get (d : list (string * pyval)) (k : string) (dflt : pyval) : pyval :=
  match dict_lookup k d with
  | Some v => v
  | None => dflt
  end.

(** Exceptions that can leave [Agent.run]. *)
Inductive exn : Type :=
| AttributeError : exn               (* an attribute a value does not have: [.get], [.split] *)
| SliceError : exn                   (* [v[:n]] on a value that cannot be sliced: [TypeError]
                                        ([KeyError] for a dictionary from Python 3.12 on) *)
| CallbackError : string -> exn.     (* whatever [on_step] raised *)

(** What a call that may raise gives. *)
Inductive tried (A : Type) : Type :=
| Ok : A -> tried A
| Raise : exn -> tried A.
Arguments Ok {A} _.
Arguments Raise {A} _.

(** ** String primitives of Python used by the parser *)

(** [s.find(c)] for a one-character [c]: first index, or [-1]. *)
Fixpoint find_from (c : ascii) (s : string) (i : Z) : Z :=
  match s with
  | EmptyString => (-1)%Z
  | String a s' => if Ascii.eqb a c then i else find_from c s' (i + 1)%Z
  end.

Definition find (c : ascii) (s : string) : Z := find_from c s 0%Z.

(** [s.rfind(c)]: last index, or [-1]. *)
Fixpoint rfind_from (c : ascii) (s : string) (i last : Z) : Z :=
  match s with
  | EmptyString => last
  | String a s' => rfind_from c s' (i + 1)%Z (if Ascii.eqb a c then i else last)
  end.

Definition rfind (c : ascii) (s : string) : Z := rfind_from c s 0%Z (-1)%Z.

(** [c in s] for a one-character [c]. *)
Fixpoint contains (c : ascii) (s : string) : bool :=
  match s with
  | EmptyString => false
  | String a s' => Ascii.eqb a c || contains c s'
  end.

(** [s[start:stop]] for [0 <= start], the only way the parser slices. *)
Definition slice (s : string) (start stop : Z) : string :=
  substring (Z.to_nat start) (Z.to_nat (stop - start)) s.

Definition nl : string := String (ascii_of_nat 10) "".

(** The double quote, and a text between double quotes. *)
Definition dq : ascii := ascii_of_nat 34.
Definition quoted (s : string) : string := String dq (s ++ String dq "").

(** [sep.join(l)]. *)
Fixpoint join (sep : string) (l : list string) : string :=
  match l with
  | [] => ""
  | [x] => x
  | x :: l' => x ++ sep ++ join sep l'
  end.

(** [str(n)] for a non-negative [int]. *)
Definition str_nat (n : nat) : string := NilEmpty.string_of_uint (Nat.to_uint n).

(** ** [agent.py]: data classes *)

Inductive AgentState : Type :=
| IDLE | THINKING | ACTING | WAITING | COMPLETED | ERROR.

Definition AgentState_eqb (a b : AgentState) : bool :=
  match a, b with
  | IDLE, IDLE | THINKING, THINKING | ACTING, ACTING
  | WAITING, WAITING | COMPLETED, COMPLETED | ERROR, ERROR => true
  | _, _ => false
  end.

(** [AgentStep]; the timestamp is left out.  [thought] is annotated [str]
    in the source but receives whatever [data.get] returns. *)
Record AgentStep : Type := mkStep {
  step_number : nat;
  thought : pyval;
  action : pyval;
  action_input : pyval;
  observation : option string
}.

(** [AgentTask]; [task_id], [context] and the two timestamps are left out
    (the loop never reads them back). *)
Record AgentTask : Type := mkTask {
  description : string;
  steps : list AgentStep;
  state : AgentState;
  result : pyval;
  error : option string
}.

Definition set_state (s : AgentState) (t : AgentTask) : AgentTask :=
  mkTask (description t) (steps t) s (result t) (error t).

Definition set_result (r : pyval) (t : AgentTask) : AgentTask :=
  mkTask (description t) (steps t) (state t) r (error t).

Definition set_error (e : string) (t : AgentTask) : AgentTask :=
  mkTask (description t) (steps t) (state t) (result t) (Some e).

Definition append_step (s : AgentStep) (t : AgentTask) : AgentTask :=
  mkTask (description t) (steps t ++ [s]) (state t) (result t) (error t).

Definition set_observation (o : string) (s : AgentStep) : AgentStep :=
  mkStep (step_number s) (thought s) (action s) (action_input s) (Some o).

(** The step appended to [task.steps] is the very object the loop goes on
    mutating, so [step.observation = ...] shows in the last element. *)
Definition observe_last (o : string) (t : AgentTask) : AgentTask :=
  mkTask (description t)
         (removelast (steps t) ++
            match rev (steps t) with
            | [] => []
            | s :: _ => [set_observation o s]
            end)
         (state t) (result t) (error t).

Definition max_steps_message : string := "Max steps reached without completing task".
Definition cancel_message : string := "Task cancelled by user".
Definition corrective_message : string :=
  "Your response wasn't valid JSON. Please respond with proper JSON format.".

(** ** [agent.py]: the helpers that build the system prompt *)

(** [c.isspace()] for a character below 256. *)
Definition is_space (c : ascii) : bool :=
  let n := nat_of_ascii c in
  (Nat.leb 9 n && Nat.leb n 13) || (Nat.leb 28 n && Nat.leb n 32)
  || Nat.eqb n 133 || Nat.eqb n 160.

(** Whether a text begins in the middle of a word. *)
Definition starts_word (s : string) : bool :=
  match s with
  | String c _ => negb (is_space c)
  | EmptyString => false
  end.

(** One more character in front of the first word. *)
Definition extend_first (c : ascii) (l : list string) : list string :=
  match l with
  | w :: ws => String c w :: ws
  | [] => [String c ""]
  end.

(** [s.split()]: the maximal runs of characters that are not whitespace. *)
Fixpoint py_split (s : string) : list string :=
  match s with
  | EmptyString => []
  | String c s' =>
      if is_space c then py_split s'
      else if starts_word s' then extend_first c (py_split s')
      else String c "" :: py_split s'
  end.

(** [s[:stop]], also for a negative [stop]. *)
Definition slice_to (s : string) (stop : Z) : string :=
  if (0 <=? stop)%Z then substring 0 (Z.to_nat stop) s
  else substring 0 (length s - Z.to_nat (- stop)) s.

(** [Agent._summarize_content]. *)
Definition _summarize_content (content : string) (max_length : Z) : string :=
  if String.eqb content "" then "No content available"
  else
    let content := join " " (py_split content) in
    if (max_length <? Z.of_nat (length content))%Z
    then slice_to content max_length ++ "..."
    else content.

(** [v[:n]] for [0 <= n]; [None] when the value cannot be sliced and the
    expression raises. *)
Definition py_prefix (n : nat) (v : pyval) : option pyval :=
  match v with
  | PStr s => Some (PStr (substring 0 n s))
  | PList l => Some (PList (firstn n l))
  | _ => None
  end.

(** The list of the values when none is missing. *)
Fixpoint all_some {A : Type} (l : list (option A)) : option (list A) :=
  match l with
  | [] => Some []
  | None :: _ => None
  | Some a :: l' =>
      match all_some l' with
      | Some r => Some (a :: r)
      | None => None
      end
  end.

Section Preamble.

Variable py_str : pyval -> string.

(** [desc += f" {label}{el[key]}"] under [if el.get(key)]. *)
Definition with_field (el : list (string * pyval)) (key label desc : string) : string :=
  if truthy (dict_get el key PNone)
  then desc ++ label ++ py_str (dict_get el key PNone)
  else desc.

(** The body of the loop of [Agent._format_elements], lines 229-240;
    [None] when a slice raises. *)
Definition describe_element (el : list (string * pyval)) : option string :=
  let desc := "[" ++ py_str (dict_get el "tag" (PStr "?")) ++ "]" in
  let with_text :=
    if truthy (dict_get el "text" PNone) then
      match py_prefix 50 (dict_get el "text" PNone) with
      | Some t => Some (desc ++ " '" ++ py_str t ++ "'")
      | None => None
      end
    else Some desc in
  match with_text with
  | None => None
  | Some desc =>
      let desc := with_field el "id" " id=" desc in
      let desc := with_field el "name" " name=" desc in
      let desc := with_field el "type" " type=" desc in
      if truthy (dict_get el "href" PNone) then
        match py_prefix 50 (dict_get el "href" PNone) with
        | Some h => Some (desc ++ " -> " ++ py_str h)
        | None => None
        end
      else Some desc
  end.

(** [Agent._format_elements]. *)
Definition _format_elements (elements : list (list (string * pyval))) : option string :=
  match elements with
  | [] => Some "No interactive elements detected"
  | _ =>
      match all_some (map describe_element elements) with
      | Some lines => Some (join nl lines)
      | None => None
      end
  end.

End Preamble.

(** ** Class [Agent] *)

Module Agent.

(** *** [Agent._parse_response] *)

Section Parser.

(** [json.loads] of the standard library; [None] is [JSONDecodeError]. *)
Variable json_loads : string -> option pyval.

(** [AgentStep(step_number=step_num, thought="")] with [thought] then
    set to the raw reply. *)
Definition fallback_step (response : string) (step_num : nat) : AgentStep :=
  mkStep step_num (PStr response) PNone PNone None.

Definition _parse_response (response : string) (step_num : nat) : tried AgentStep :=
  let start := find "{"%char response in
  let end_ := (rfind "}"%char response + 1)%Z in
  if (0 <=? start)%Z && (start <? end_)%Z then
    match json_loads (slice response start end_) with
    | Some (PDict data) =>
        Ok (mkStep step_num
                   (dict_get data "thought" (PStr ""))
                   (dict_get data "action" PNone)
                   (dict_get data "action_input" (PDict []))
                   None)
    | Some _ => Raise AttributeError   (* [.get] on what is not a dict *)
    | None => Ok (fallback_step response step_num)
    end
  else Ok (fallback_step response step_num).

End Parser.

(** *** [Agent.run] and [Agent.stop] *)

(** The body of [Agent.stop] on the task it finds in [self.current_task]. *)
Definition cancel (t : AgentTask) : AgentTask :=
  set_error cancel_message (set_state ERROR t).

(** [Agent.stop]: [if self.current_task: ...]. *)
Definition stop (current_task : option AgentTask) : option AgentTask :=
  match current_task with
  | Some t => Some (cancel t)
  | None => None
  end.

(** What the tool executor call of one step did.  [ToolReturned o]: the
    executor returned and [json.dumps] of its result is [o].
    [ToolRaised e]: the executor, or [json.dumps] of what it returned,
    raised an [Exception] whose [str] is [e]. *)
Inductive tool_outcome : Type :=
| ToolReturned : string -> tool_outcome
| ToolRaised : string -> tool_outcome.

(** What happened at the suspension points of one loop iteration.  The
    [stop_during_*] flags say that [Agent.stop] ran while the loop was
    suspended in that call.  [on_step_raises = Some e]: the callback
    raised an exception whose text is [e]. *)
Record StepEvents : Type := mkEvents {
  reply : string;
  stop_during_generate : bool;
  on_step_raises : option string;
  stop_during_on_step : bool;
  tool : tool_outcome;
  stop_during_tool : bool
}.

(** The loop's variables: the task, the transcript [messages], and the
    prompts handed to [llm_engine.generate] so far, one per call. *)
Record RunState : Type := mkRun {
  task : AgentTask;
  messages : list string;
  prompts : list string
}.

Definition on_task (f : AgentTask -> AgentTask) (st : RunState) : RunState :=
  mkRun (f (task st)) (messages st) (prompts st).

Definition push_message (m : string) (st : RunState) : RunState :=
  mkRun (task st) (messages st ++ [m]) (prompts st).

Definition push_prompt (p : string) (st : RunState) : RunState :=
  mkRun (task st) (messages st) (prompts st ++ [p]).

Definition stopped (b : bool) (st : RunState) : RunState :=
  if b then on_task cancel st else st.

(** How one iteration of the [for] loop ends. *)
Inductive control : Type :=
| Continue : RunState -> control
| Break : RunState -> control
| Raised : exn -> RunState -> control.

(** What the host gets from [await agent.run(...)]. *)
Inductive outcome : Type :=
| Returned : RunState -> outcome
| Thrown : exn -> RunState -> outcome.

Section AgentLoop.

Variable json_loads : string -> option pyval.
(** [str(v)] as the f-strings format a value, and [json.dumps(v)]. *)
Variable py_str : pyval -> string.
Variable json_dumps : pyval -> string.

(** [self.max_steps], whether [self.tool_executor] is set, whether
    [on_step] was given. *)
Variable max_steps : nat.
Variable has_tool_executor : bool.
Variable has_on_step : bool.

Definition history_entry (step_num : nat) (step : AgentStep) (obs : string) : string :=
  "Step " ++ str_nat step_num ++ ":" ++ nl ++
  "Thought: " ++ py_str (thought step) ++ nl ++
  "Action: " ++ py_str (action step) ++ nl ++
  "Action Input: " ++ json_dumps (action_input step) ++ nl ++
  "Observation: " ++ obs.

Definition tool_error (step : AgentStep) (e : string) : string :=
  "Error executing " ++ py_str (action step) ++ ": " ++ e.

(** Lines 175-191: execute the action, then the check for a missing
    action. *)
Definition act (step_num : nat) (ev : StepEvents) (step : AgentStep)
           (st : RunState) : RunState :=
  let st :=
    if truthy (action step) && has_tool_executor then
      let st := on_task (set_state ACTING) st in
      let st := stopped (stop_during_tool ev) st in
      match tool ev with
      | ToolReturned o =>
          push_message (history_entry step_num step o)
                       (on_task (observe_last o) st)
      | ToolRaised e =>
          let o := tool_error step e in
          push_message (history_entry step_num step o)
                       (on_task (set_state ERROR) (on_task (observe_last o) st))
      end
    else st in
  if is_None (action step) then push_message corrective_message st else st.

(** Lines 168-173: the terminal action. *)
Definition finish (step : AgentStep) (st : RunState) : control :=
  let st := on_task (set_state COMPLETED) st in
  match action_input step with
  | PDict d =>
      Break (on_task (set_result (dict_get d "message" (PStr "Task completed"))) st)
  | _ => Raised AttributeError st
  end.

(** Lines 148-159: the state is reset, the prompt is rebuilt from the
    transcript, and the provider is awaited. *)
Definition think (ev : StepEvents) (st : RunState) : RunState :=
  let st := on_task (set_state THINKING) st in
  let st := push_prompt (join (nl ++ nl) (messages st)) st in
  stopped (stop_during_generate ev) st.

(** Lines 163-166: the step is appended and the callback, if there is
    one, is awaited. *)
Definition record_step (ev : StepEvents) (step : AgentStep) (st : RunState) : RunState :=
  let st := on_task (append_step step) st in
  if has_on_step then stopped (stop_during_on_step ev) st else st.

(** What [await on_step(step)] raised, if it ran and raised. *)
Definition on_step_error (ev : StepEvents) : option string :=
  if has_on_step then on_step_raises ev else None.

(** [step.action == "answer_user"]. *)
Definition terminal (step : AgentStep) : bool := eq_str (action step) "answer_user".

(** Lines 148-191: one iteration of the loop. *)
Definition iteration (step_num : nat) (ev : StepEvents) (st : RunState) : control :=
  let st := think ev st in
  match _parse_response json_loads (reply ev) step_num with
  | Raise e => Raised e st
  | Ok step =>
      let st := record_step ev step st in
      match on_step_error ev with
      | Some e => Raised (CallbackError e) st
      | None =>
          if terminal step then finish step st
          else Continue (act step_num ev step st)
      end
  end.

(** [for step_num in range(...)], over the step numbers still to do. *)
Fixpoint loop (events : nat -> StepEvents) (nums : list nat) (st : RunState) : control :=
  match nums with
  | [] => Continue st
  | n :: nums' =>
      match iteration n (events n) st with
      | Continue st' => loop events nums' st'
      | c => c
      end
  end.

(** Lines 193-195. *)
Definition final_check (t : AgentTask) : AgentTask :=
  if AgentState_eqb (state t) COMPLETED then t
  else set_error max_steps_message (set_state ERROR t).

Definition first_message (task_description : string) : string :=
  "User task: " ++ task_description ++ nl ++ nl ++
  "Begin by analyzing the page and planning your approach.".

Definition initial (task_description : string) : RunState :=
  mkRun (mkTask task_description [] THINKING PNone None)
        [first_message task_description] [].

(** The task as lines 121-127 create it; there is no transcript yet. *)
Definition created (task_description : string) : RunState :=
  mkRun (mkTask task_description [] THINKING PNone None) [] [].

(** The loop of [_format_elements] over whatever the slice holds: an
    element that is not a dictionary has no [get], and a [text] or
    [href] that cannot be sliced raises. *)
Fixpoint describe_all (elements : list pyval) : tried (list string) :=
  match elements with
  | [] => Ok []
  | PDict el :: rest =>
      match describe_element py_str el with
      | None => Raise SliceError
      | Some line =>
          match describe_all rest with
          | Ok lines => Ok (line :: lines)
          | Raise e => Raise e
          end
      end
  | _ :: _ => Raise AttributeError
  end.

(** Lines 130-131: [self._format_elements(interactive_elements[:30])]
    on the value the context holds.  A [str] can be sliced, and its
    characters have no [get]; [None], a number, a boolean and a
    dictionary cannot be sliced. *)
Definition format_context_elements (interactive_elements : pyval) : tried string :=
  match interactive_elements with
  | PList items =>
      match firstn 30 items with
      | [] => Ok "No interactive elements detected"
      | elements =>
          match describe_all elements with
          | Ok lines => Ok (join nl lines)
          | Raise e => Raise e
          end
      end
  | PStr s =>
      if String.eqb (substring 0 30 s) "" then Ok "No interactive elements detected"
      else Raise AttributeError
  | _ => Raise SliceError
  end.

(** Line 137: [self._summarize_content(context.get("content", ""))] on
    the value the context holds: a falsy value gives the text for no
    content, and a truthy value that is no [str] has no [split]. *)
Definition summarize_context_content (content : pyval) : tried string :=
  match content with
  | PStr s => Ok (_summarize_content s 2000)
  | _ => if truthy content then Raise AttributeError else Ok "No content available"
  end.

(** The texts lines 134-140 put into [SYSTEM_PROMPT]; the template and
    the text of the tool catalogue are constants. *)
Record SystemPrompt : Type := mkPrompt {
  prompt_url : string;
  prompt_title : string;
  prompt_content_summary : string;
  prompt_interactive_elements : string
}.

(** Lines 129-140: the system prompt, or what building it raised. *)
Definition build_system_prompt (context : list (string * pyval)) : tried SystemPrompt :=
  match format_context_elements (dict_get context "interactive_elements" (PList [])) with
  | Raise e => Raise e
  | Ok elements_str =>
      match summarize_context_content (dict_get context "content" (PStr "")) with
      | Raise e => Raise e
      | Ok content_summary =>
          Ok (mkPrompt (py_str (dict_get context "url" (PStr "unknown")))
                       (py_str (dict_get context "title" (PStr "unknown")))
                       content_summary elements_str)
      end
  end.

(** [Agent.run].  The system prompt does not change once it is built
    and is the same in every provider call; an exception while it is
    built leaves [run] before the loop. *)
Definition run (task_description : string) (context : list (string * pyval))
           (events : nat -> StepEvents) : outcome :=
  match build_system_prompt context with
  | Raise e => Thrown e (created task_description)
  | Ok _ =>
      match loop events (seq 1 max_steps) (initial task_description) with
      | Continue st | Break st => Returned (on_task final_check st)
      | Raised e st => Thrown e st
      end
  end.

End AgentLoop.

End Agent.

Import Agent.

(** ** [llm_engine.py]: [OllamaEngine.initialize], [GeminiEngine.initialize],
       [LLMEngine.switch_mode] *)

(** The fields of [config.Settings] the engines read. *)
Record Settings : Type := mkSettings {
  default_model : string;
  fallback_model : string;
  ai_mode : string;
  gemini_api_key : option string
}.

(** [OllamaEngine]; [base_url] and the HTTP client are left out. *)
Record OllamaEngine : Type := mkOllama {
  ollama_model : string;
  ollama_available : bool
}.

(** [GeminiEngine]; [gemini_client] is [self.model], the client object,
    known here by the model name it was built for. *)
Record GeminiEngine : Type := mkGemini {
  model_name : string;
  api_key : option string;
  gemini_available : bool;
  gemini_client : option string
}.

Inductive engine_ref : Type := TheOllama | TheGemini.

(** [LLMEngine].  [active_engine] is a reference to one of the two
    engines the manager owns. *)
Record LLMEngine : Type := mkEngine {
  ollama : OllamaEngine;
  gemini : GeminiEngine;
  mode : string;
  active_engine : engine_ref;
  model : option string;
  model_available : bool
}.

(** What [GET /api/tags] did: the request, or reading the model names
    out of its body, raised; or it answered with a status code and the
    names. *)
Inductive tags_response : Type :=
| TagsRaised : tags_response
| TagsAnswer : Z -> list string -> tags_response.

(** The world as the two [initialize] methods meet it. *)
Record Probe : Type := mkProbe {
  tags : tags_response;
  genai_accepts : bool      (* [genai.configure] and [GenerativeModel] do not raise *)
}.

(** [s.split(":")[0]]. *)
Fixpoint before_colon (s : string) : string :=
  match s with
  | EmptyString => EmptyString
  | String a s' => if Ascii.eqb a ":"%char then EmptyString else String a (before_colon s')
  end.

(** [x in l] for a list of [str]. *)
Definition str_in (x : string) (l : list string) : bool :=
  existsb (String.eqb x) l.

Section Engines.

Variable settings : Settings.

Definition ollama_initialize (p : Probe) (o : OllamaEngine) : OllamaEngine * bool :=
  match tags p with
  | TagsRaised => (o, false)
  | TagsAnswer status model_names =>
      if (status =? 200)%Z then
        if str_in (ollama_model o) model_names
           || str_in (before_colon (ollama_model o)) (map before_colon model_names)
        then (mkOllama (ollama_model o) true, true)
        else if str_in (fallback_model settings) model_names
        then (mkOllama (fallback_model settings) true, true)
        else (o, false)
      else (o, false)
  end.

(** [not self.api_key]. *)
Definition no_key (k : option string) : bool :=
  match k with
  | None => true
  | Some s => String.eqb s ""
  end.

Definition gemini_initialize (p : Probe) (g : GeminiEngine) : GeminiEngine * bool :=
  let g := mkGemini (model_name g) (gemini_api_key settings)
                    (gemini_available g) (gemini_client g) in
  if no_key (api_key g) then (g, false)
  else if genai_accepts p
  then (mkGemini (model_name g) (api_key g) true (Some (model_name g)), true)
  else (g, false).

(** [LLMEngine.switch_mode]. *)
Definition switch_mode (target : string) (p : Probe) (e : LLMEngine) : LLMEngine * bool :=
  if String.eqb target "online" then
    let '(g, success) := gemini_initialize p (gemini e) in
    if success
    then (mkEngine (ollama e) g "online" TheGemini (Some (model_name g))
                   (model_available e), true)
    else (mkEngine (ollama e) g (mode e) (active_engine e) (model e)
                   (model_available e), false)
  else if String.eqb target "offline" then
    let '(o, success) := ollama_initialize p (ollama e) in
    if success
    then (mkEngine o (gemini e) "offline" TheOllama (Some (ollama_model o))
                   (model_available e), true)
    else (mkEngine o (gemini e) (mode e) (active_engine e) (model e)
                   (model_available e), false)
  else (e, false).

(** The adapter a mode names, if it names one. *)
Definition adapter_of (target : string) : option engine_ref :=
  if String.eqb target "online" then Some TheGemini
  else if String.eqb target "offline" then Some TheOllama
  else None.

(** Whether initializing the adapter behind [r] succeeds. *)
Definition initializes (r : engine_ref) (p : Probe) (e : LLMEngine) : bool :=
  match r with
  | TheGemini => snd (gemini_initialize p (gemini e))
  | TheOllama => snd (ollama_initialize p (ollama e))
  end.

End Engines.

(** ** A reader for JSON texts

    [Agent] takes [json.loads], [json.dumps] and [str] from Python.  The
    theorems below hold for whatever functions stand in their place; to
    run the loop on concrete replies the following reader is used.  It
    reads objects, arrays, strings with the one-letter escapes, integers,
    [true], [false] and [null], and rejects everything else. *)

Module Json.

Definition is_ws (c : ascii) : bool :=
  Ascii.eqb c " "%char || Ascii.eqb c (ascii_of_nat 9)
  || Ascii.eqb c (ascii_of_nat 10) || Ascii.eqb c (ascii_of_nat 13).

Fixpoint skip_ws (s : string) : string :=
  match s with
  | String c s' => if is_ws c then skip_ws s' else s
  | EmptyString => s
  end.

Definition unescape (c : ascii) : option ascii :=
  if Ascii.eqb c dq then Some c
  else if Ascii.eqb c "\"%char then Some c
  else if Ascii.eqb c "/"%char then Some c
  else if Ascii.eqb c "n"%char then Some (ascii_of_nat 10)
  else if Ascii.eqb c "t"%char then Some (ascii_of_nat 9)
  else if Ascii.eqb c "r"%char then Some (ascii_of_nat 13)
  else if Ascii.eqb c "b"%char then Some (ascii_of_nat 8)
  else if Ascii.eqb c "f"%char then Some (ascii_of_nat 12)
  else None.

(** The characters of a string literal after its opening quote, and
    what follows the closing quote. *)
Fixpoint read_string (s : string) : option (string * string) :=
  match s with
  | EmptyString => None
  | String c s' =>
      if Ascii.eqb c dq then Some (EmptyString, s')
      else if Ascii.eqb c "\"%char then
        match s' with
        | String e s'' =>
            match unescape e, read_string s'' with
            | Some a, Some (body, rest) => Some (String a body, rest)
            | _, _ => None
            end
        | EmptyString => None
        end
      else if (nat_of_ascii c <? 32)%nat then None
      else
        match read_string s' with
        | Some (body, rest) => Some (String c body, rest)
        | None => None
        end
  end.

Definition digit (c : ascii) : option Z :=
  let n := nat_of_ascii c in
  if (48 <=? n)%nat && (n <=? 57)%nat then Some (Z.of_nat (n - 48)) else None.

Fixpoint read_digits (s : string) (acc : Z) : Z * string :=
  match s with
  | String c s' =>
      match digit c with
      | Some d => read_digits s' (10 * acc + d)%Z
      | None => (acc, s)
      end
  | EmptyString => (acc, s)
  end.

(** An integer without sign: [0], or digits not starting with [0];
    a fraction or an exponent after it is rejected. *)
Definition read_nat (s : string) : option (Z * string) :=
  match s with
  | String c s' =>
      match digit c with
      | Some d =>
          let '(n, rest) := if (d =? 0)%Z then (0%Z, s') else read_digits s' d in
          match rest with
          | String c' _ =>
              if Ascii.eqb c' "."%char || Ascii.eqb c' "e"%char || Ascii.eqb c' "E"%char
              then None else Some (n, rest)
          | EmptyString => Some (n, rest)
          end
      | None => None
      end
  | EmptyString => None
  end.

(** [d[k] = v]. *)
Fixpoint dict_set (k : string) (v : pyval) (d : list (string * pyval))
  : list (string * pyval) :=
  match d with
  | [] => [(k, v)]
  | (k', v') :: d' =>
      if String.eqb k' k then (k', v) :: d' else (k', v') :: dict_set k v d'
  end.

Definition strip (lit s : string) : option string :=
  if prefix lit s then Some (substring (length lit) (length s - length lit) s)
  else None.

Fixpoint read_value (fuel : nat) (s : string) {struct fuel} : option (pyval * string) :=
  match fuel with
  | O => None
  | S fuel' =>
      match s with
      | EmptyString => None
      | String c rest =>
          if Ascii.eqb c "{"%char then
            match skip_ws rest with
            | String c' rest' =>
                if Ascii.eqb c' "}"%char then Some (PDict [], rest')
                else read_members fuel' (String c' rest') []
            | EmptyString => None
            end
          else if Ascii.eqb c "["%char then
            match skip_ws rest with
            | String c' rest' =>
                if Ascii.eqb c' "]"%char then Some (PList [], rest')
                else read_elements fuel' (String c' rest') []
            | EmptyString => None
            end
          else if Ascii.eqb c dq then
            match read_string rest with
            | Some (body, rest') => Some (PStr body, rest')
            | None => None
            end
          else if Ascii.eqb c "-"%char then
            match read_nat rest with
            | Some (n, rest') => Some (PInt (- n), rest')
            | None => None
            end
          else
            match strip "null" s, strip "true" s, strip "false" s with
            | Some rest', _, _ => Some (PNone, rest')
            | _, Some rest', _ => Some (PBool true, rest')
            | _, _, Some rest' => Some (PBool false, rest')
            | _, _, _ =>
                match read_nat s with
                | Some (n, rest') => Some (PInt n, rest')
                | None => None
                end
            end
      end
  end
with read_members (fuel : nat) (s : string) (acc : list (string * pyval))
       {struct fuel} : option (pyval * string) :=
  match fuel with
  | O => None
  | S fuel' =>
      match s with
      | String q rest =>
          if Ascii.eqb q dq then
            match read_string rest with
            | Some (key, rest1) =>
                match skip_ws rest1 with
                | String colon rest2 =>
                    if Ascii.eqb colon ":"%char then
                      match read_value fuel' (skip_ws rest2) with
                      | Some (v, rest3) =>
                          let acc' := dict_set key v acc in
                          match skip_ws rest3 with
                          | String sep rest4 =>
                              if Ascii.eqb sep ","%char
                              then read_members fuel' (skip_ws rest4) acc'
                              else if Ascii.eqb sep "}"%char
                              then Some (PDict acc', rest4)
                              else None
                          | EmptyString => None
                          end
                      | None => None
                      end
                    else None
                | EmptyString => None
                end
            | None => None
            end
          else None
      | EmptyString => None
      end
  end
with read_elements (fuel : nat) (s : string) (acc : list pyval)
       {struct fuel} : option (pyval * string) :=
  match fuel with
  | O => None
  | S fuel' =>
      match read_value fuel' s with
      | Some (v, rest) =>
          match skip_ws rest with
          | String sep rest' =>
              if Ascii.eqb sep ","%char
              then read_elements fuel' (skip_ws rest') (acc ++ [v])
              else if Ascii.eqb sep "]"%char
              then Some (PList (acc ++ [v]), rest')
              else None
          | EmptyString => None
          end
      | None => None
      end
  end.

(** [json.loads] on the texts this reader covers. *)
Definition loads (s : string) : option pyval :=
  match read_value (2 * length s + 2) (skip_ws s) with
  | Some (v, rest) =>
      match skip_ws rest with
      | EmptyString => Some v
      | _ => None
      end
  | None => None
  end.

Definition str_Z (z : Z) : string :=
  if (z <? 0)%Z then "-" ++ str_nat (Z.to_nat (- z)) else str_nat (Z.to_nat z).

(** [json.dumps] with its default separators, for strings that need
    no escaping. *)
Fixpoint dumps (v : pyval) : string :=
  match v with
  | PNone => "null"
  | PBool b => if b then "true" else "false"
  | PInt z => str_Z z
  | PStr s => quoted s
  | PList l => "[" ++ join ", " (map dumps l) ++ "]"
  | PDict d =>
      "{" ++ join ", " (map (fun kv => quoted (fst kv) ++ ": " ++ dumps (snd kv)) d) ++ "}"
  end.

(** [repr], for strings without quotes or escapes. *)
Fixpoint repr (v : pyval) : string :=
  match v with
  | PNone => "None"
  | PBool b => if b then "True" else "False"
  | PInt z => str_Z z
  | PStr s => "'" ++ s ++ "'"
  | PList l => "[" ++ join ", " (map repr l) ++ "]"
  | PDict d =>
      "{" ++ join ", " (map (fun kv => "'" ++ fst kv ++ "': " ++ repr (snd kv)) d) ++ "}"
  end.

(** [str]. *)
Definition str (v : pyval) : string :=
  match v with
  | PStr s => s
  | _ => repr v
  end.

End Json.



(** ** Vocabulary for the context *)

(** Building the system prompt from the context does not raise. *)
Definition prompt_ok (py_str : pyval -> string) (context : list (string * pyval)) : Prop :=
  exists prompt, build_system_prompt py_str context = Ok prompt.

(** A value that is a [str] or a [list], or that is falsy. *)
Definition sliceable (v : pyval) : bool :=
  match v with
  | PStr _ | PList _ => true
  | _ => negb (truthy v)
  end.

(** An object whose [text] and [href], where it has them, are texts or
    lists, or are falsy. *)
Definition element_ok (v : pyval) : bool :=
  match v with
  | PDict el =>
      sliceable (dict_get el "text" PNone) && sliceable (dict_get el "href" PNone)
  | _ => false
  end.

(** A context whose [interactive_elements], if it has them, are a list
    whose first 30 entries are such objects, or the empty text; and whose
    [content], if it has one, is a text or is falsy. *)
Definition context_ok (context : list (string * pyval)) : bool :=
  match dict_get context "interactive_elements" (PList []) with
  | PList items => forallb element_ok (firstn 30 items)
  | PStr s => String.eqb s ""
  | _ => false
  end
  && match dict_get context "content" (PStr "") with
     | PStr _ => true
     | v => negb (truthy v)
     end.

(** ** Vocabulary of the statements *)

(** A reply without a JSON object in it: the last closing brace, if
    there is one, comes before the first opening brace, if there is one;
    or the text from the first opening to the last closing brace is not
    JSON. *)
Definition no_json_object (json_loads : string -> option pyval) (r : string) : Prop :=
  (exists pre post,
      r = pre ++ post /\
      contains "{"%char pre = false /\ contains "}"%char post = false)
  \/ (exists pre mid post,
         r = pre ++ String "{"%char (mid ++ String "}"%char post) /\
         contains "{"%char pre = false /\ contains "}"%char post = false /\
         json_loads (String "{"%char (mid ++ String "}"%char "")) = None).

(** Step [n] of the script parses to a step that does not choose the
    terminal action. *)
Definition chooses_other (json_loads : string -> option pyval)
           (events : nat -> StepEvents) (n : nat) : Prop :=
  exists step, _parse_response json_loads (reply (events n)) n = Ok step
               /\ terminal step = false.

(** Step [n] of the script parses to a step that chooses the terminal
    action with the parameters [params]. *)
Definition chooses_answer (json_loads : string -> option pyval)
           (events : nat -> StepEvents) (n : nat) (params : pyval) : Prop :=
  exists step, _parse_response json_loads (reply (events n)) n = Ok step
               /\ terminal step = true /\ action_input step = params.

(** [Agent.stop] was invoked at some suspension point of the step. *)
Definition stop_requested (has_on_step : bool) (ev : StepEvents) : bool :=
  stop_during_generate ev
  || (has_on_step && stop_during_on_step ev).

(** The number of [llm_engine.generate] calls an outcome was reached with. *)
Definition provider_calls (o : outcome) : nat :=
  match o with
  | Returned st | Thrown _ st => List.length (prompts st)
  end.

(** ** The statements of the specification that the code does not meet

    Each is written down as the specification words it, over the same
    model, to be compared with what [run] does. *)

(** "If the terminal action is chosen on step k, state is completed and
    result equals the terminal action's message parameter; no further
    steps are taken." *)
Definition spec_terminal_claim
           (json_loads : string -> option pyval) (py_str json_dumps : pyval -> string)
           (max_steps : nat) (has_tool_executor has_on_step : bool)
           (desc : string) (context : list (string * pyval))
           (events : nat -> StepEvents) (k : nat) : Prop :=
  forall step,
    _parse_response json_loads (reply (events k)) k = Ok step ->
    terminal step = true ->
    exists st,
      run json_loads py_str json_dumps max_steps has_tool_executor has_on_step desc context
          events
      = Returned st
      /\ state (task st) = COMPLETED
      /\ (exists d, action_input step = PDict d
                    /\ dict_lookup "message" d = Some (result (task st)))
      /\ List.length (steps (task st)) = k
      /\ List.length (prompts st) = k.

(** "Callback failures must not abort the loop": when the callback
    raises on step [k], the run still takes the steps left and returns a
    task. *)
Definition spec_callback_claim
           (json_loads : string -> option pyval) (py_str json_dumps : pyval -> string)
           (max_steps : nat) (has_tool_executor has_on_step : bool)
           (desc : string) (context : list (string * pyval))
           (events : nat -> StepEvents) (k : nat) : Prop :=
  on_step_error has_on_step (events k) <> None ->
  exists st,
    run json_loads py_str json_dumps max_steps has_tool_executor has_on_step desc context
          events
    = Returned st
    /\ k <= List.length (prompts st).


(** ** Scripts to run the loop on *)

Module Scenario.

(** What is between the outer braces of the reply below. *)
Definition click_fields : string :=
  quoted "thought" ++ ":" ++ quoted "locate button" ++ ","
  ++ quoted "action" ++ ":" ++ quoted "click" ++ ","
  ++ quoted "action_input" ++ ":{" ++ quoted "selector" ++ ":" ++ quoted "#login" ++ "}".

(** [{"thought":"locate button","action":"click","action_input":{"selector":"#login"}}] *)
Definition reply_click : string := "{" ++ click_fields ++ "}".


(** [{"thought":"done","action":"answer_user","action_input":{"message":"Clicked login"}}] *)
Definition reply_answer : string :=
  "{" ++ quoted "thought" ++ ":" ++ quoted "done" ++ ","
      ++ quoted "action" ++ ":" ++ quoted "answer_user" ++ ","
      ++ quoted "action_input" ++ ":{" ++ quoted "message" ++ ":" ++ quoted "Clicked login" ++ "}}".

(** [{"thought":"done","action":"answer_user"}] *)
Definition reply_answer_bare : string :=
  "{" ++ quoted "thought" ++ ":" ++ quoted "done" ++ ","
      ++ quoted "action" ++ ":" ++ quoted "answer_user" ++ "}".

(** [{"action":"answer_user","action_input":null}] *)
Definition reply_answer_null : string :=
  "{" ++ quoted "action" ++ ":" ++ quoted "answer_user" ++ ","
      ++ quoted "action_input" ++ ":null}".

(** A reply in prose. *)
Definition reply_prose : string := "I will look for the login button first.".

(** [json.dumps] of a [ToolResult] with [success=True]. *)
Definition tool_success : string :=
  "{" ++ quoted "success" ++ ": true, " ++ quoted "data" ++ ": null, "
      ++ quoted "error" ++ ": null, " ++ quoted "screenshot" ++ ": null}".

(** A step during which nobody calls [stop], the callback returns and
    the executor succeeds. *)
Definition calm (r : string) : StepEvents :=
  mkEvents r false None false (ToolReturned tool_success) false.

Definition always (ev : StepEvents) : nat -> StepEvents := fun _ => ev.

(** A first step, then the same events for every later one. *)
Definition first_then (ev1 ev : StepEvents) : nat -> StepEvents :=
  fun n => if Nat.eqb n 1 then ev1 else ev.

(** The context of a page with a link and a button. *)
Definition page : list (string * pyval) :=
  [("url", PStr "https://example.org/");
   ("title", PStr "Example");
   ("content", PStr "Welcome.  Please sign in.");
   ("interactive_elements",
    PList [PDict [("tag", PStr "a"); ("text", PStr "Sign in");
                  ("href", PStr "https://example.org/login")];
           PDict [("tag", PStr "button"); ("text", PStr "Search");
                  ("id", PStr "go")]])].

(** [run] on that page, with the reader of [Json] for the library
    functions. *)
Definition run (max_steps : nat) (has_tool_executor has_on_step : bool)
           (desc : string) (events : nat -> StepEvents) : outcome :=
  Agent.run Json.loads Json.str Json.dumps max_steps has_tool_executor has_on_step
                desc page events.

Definition instruction : string := "find the login button and click it".

(** The executor raises on the first step. *)
Definition tool_fails : StepEvents :=
  mkEvents reply_click false None false (ToolRaised "no element matches #login") false.

(** The callback raises on the first step. *)
Definition callback_fails : StepEvents :=
  mkEvents reply_click false (Some "connection closed") false (ToolReturned tool_success) false.


(** [stop] is called while the provider is answering the first step. *)
Definition stop_early : StepEvents :=
  mkEvents reply_click true None false (ToolReturned tool_success) false.

Definition settings : Settings := mkSettings "llama3.2:3b" "llama3.2:1b" "online" None.

(** The manager as [LLMEngine.__init__] leaves it with these settings. *)
Definition engine : LLMEngine :=
  mkEngine (mkOllama "llama3.2:3b" false)
           (mkGemini "gemini-2.0-flash-exp" None false None)
           "online" TheGemini None false.

(** Ollama answers and has the default model; there is no Gemini key. *)
Definition local_only : Probe := mkProbe (TagsAnswer 200 ["llama3.2:3b"]) true.

(** Ollama is not running. *)
Definition nothing_up : Probe := mkProbe TagsRaised true.

End Scenario.

(** ** Vocabulary for texts *)

(** Some character of the text is whitespace. *)
Fixpoint has_space (s : string) : bool :=
  match s with
  | EmptyString => false
  | String c s' => is_space c || has_space s'
  end.

(** Every character of the text is whitespace. *)
Fixpoint all_space (s : string) : bool :=
  match s with
  | EmptyString => true
  | String c s' => is_space c && all_space s'
  end.

(** A word: not empty, no whitespace in it. *)
Definition is_word (w : string) : bool :=
  negb (String.eqb w "") && negb (has_space w).

(** After a character that was a space or not: the only whitespace is
    the space character, and never two in a row. *)
Fixpoint tidy_from (after_space : bool) (s : string) : bool :=
  match s with
  | EmptyString => true
  | String c s' =>
      if is_space c
      then Ascii.eqb c " "%char && negb after_space && tidy_from true s'
      else tidy_from false s'
  end.

(** No whitespace but single spaces between other characters, and none
    in front. *)
Definition tidy (s : string) : bool := tidy_from true s.

(** ** Vocabulary for the steps of a run *)

(** The task an outcome carries. *)
Definition task_of (o : outcome) : AgentTask :=
  match o with
  | Returned st | Thrown _ st => task st
  end.

(** The guard of line 176: the action is handed to the tool executor. *)
Definition executed (has_tool_executor : bool) (step : AgentStep) : bool :=
  truthy (action step) && has_tool_executor.

(** The observation lines 181 and 183 give a step that was executed. *)
Definition tool_text (py_str : pyval -> string) (ev : StepEvents) (step : AgentStep)
  : string :=
  match tool ev with
  | ToolReturned o => o
  | ToolRaised e => tool_error py_str step e
  end.

(** A step as the action phase leaves it in [task.steps]. *)
Definition acted (py_str : pyval -> string) (has_tool_executor : bool)
           (ev : StepEvents) (step : AgentStep) : AgentStep :=
  if executed has_tool_executor step
  then set_observation (tool_text py_str ev step) step
  else step.

(** What the action phase appends to the transcript. *)
Definition act_messages (py_str json_dumps : pyval -> string) (has_tool_executor : bool)
           (n : nat) (ev : StepEvents) (step : AgentStep) : list string :=
  ((if executed has_tool_executor step
    then [history_entry py_str json_dumps n step (tool_text py_str ev step)]
    else [])
   ++ (if is_None (action step) then [corrective_message] else []))%list.

(** [observation is not None]. *)
Definition observed (s : AgentStep) : bool :=
  match observation s with
  | Some _ => true
  | None => false
  end.

(** Each text of the list is a prefix of the next. *)
Fixpoint growing (l : list string) : bool :=
  match l with
  | a :: (b :: _) as rest => prefix a b && growing rest
  | _ => true
  end.

(** Step [n] of the script was taken and the loop went on: [s] is what
    it left in [task.steps]. *)
Definition step_taken (json_loads : string -> option pyval) (py_str : pyval -> string)
           (has_tool_executor : bool) (events : nat -> StepEvents)
           (n : nat) (s : AgentStep) : Prop :=
  exists step,
    _parse_response json_loads (reply (events n)) n = Ok step
    /\ terminal step = false
    /\ s = acted py_str has_tool_executor (events n) step.

(** Step [n] of the script parsed to [s], which chose the terminal
    action. *)
Definition step_answered (json_loads : string -> option pyval)
           (events : nat -> StepEvents) (n : nat) (s : AgentStep) : Prop :=
  _parse_response json_loads (reply (events n)) n = Ok s /\ terminal s = true.

(** ** [llm_engine.py], [gemini_engine.py]: [generate] and [initialize] *)

(** What [POST /api/chat] did for [OllamaEngine.generate]: the request,
    or reading the content out of its body, raised an exception with the
    given text; or it answered with a status code and, under
    [message.content] of its body, the given text. *)
Inductive chat_response : Type :=
| ChatRaised : string -> chat_response
| ChatAnswer : Z -> string -> chat_response.

(** What [generate_content] did for [GeminiEngine.generate]: it, or
    building the model before it, raised; or it gave a text. *)
Inductive genai_response : Type :=
| GenaiRaised : string -> genai_response
| GenaiText : string -> genai_response.

(** The two backends as one [generate] call meets them. *)
Record Backend : Type := mkBackend {
  chat : chat_response;
  genai : genai_response
}.

(** [OllamaEngine.generate]. *)
Definition ollama_generate (o : OllamaEngine) (w : chat_response) : string :=
  if negb (ollama_available o) then "Ollama not available."
  else
    match w with
    | ChatAnswer status content =>
        if (status =? 200)%Z then content else "Error: " ++ Json.str_Z status
    | ChatRaised e => "Error generating response: " ++ e
    end.

(** [GeminiEngine.generate]. *)
Definition gemini_generate (g : GeminiEngine) (w : genai_response) : string :=
  if negb (gemini_available g) then "Gemini API Key missing or invalid."
  else
    match w with
    | GenaiText t => t
    | GenaiRaised e => "Error: " ++ e
    end.

(** [LLMEngine.generate]: the call goes to the active engine. *)
Definition llm_generate (e : LLMEngine) (w : Backend) : string :=
  match active_engine e with
  | TheOllama => ollama_generate (ollama e) (chat w)
  | TheGemini => gemini_generate (gemini e) (genai w)
  end.

(** [LLMEngine.initialize]. *)
Definition llm_initialize (settings : Settings) (p : Probe) (e : LLMEngine)
  : LLMEngine * bool :=
  let offline (mode : string) (g : GeminiEngine) :=
    let '(o, success) := ollama_initialize settings p (ollama e) in
    (mkEngine o g mode TheOllama (Some (ollama_model o)) success, success) in
  if String.eqb (ai_mode settings) "online" then
    let '(g, success) := gemini_initialize settings p (gemini e) in
    if success
    then (mkEngine (ollama e) g (ai_mode settings) TheGemini (Some (model_name g)) true,
          true)
    else offline "offline" g
  else offline (ai_mode settings) (gemini e).

(** ** [server.py]: the endpoints over the engine manager

    The process-wide [settings] and [llm_engine] are the state. *)

(** [POST /ai/mode]: the state after it and the [success] it reports. *)
Definition set_ai_mode (request_mode : string) (p : Probe) (sv : Settings * LLMEngine)
  : (Settings * LLMEngine) * bool :=
  let '(e', success) := switch_mode (fst sv) request_mode p (snd sv) in
  ((mkSettings (default_model (fst sv)) (fallback_model (fst sv)) request_mode
               (gemini_api_key (fst sv)),
    e'),
   success).

(** [POST /model/switch]: the state after it, and the [model] and
    [available] it reports. *)
Definition switch_model (requested : string) (p : Probe) (sv : Settings * LLMEngine)
  : (Settings * LLMEngine) * (option string * bool) :=
  let e0 := mkEngine (ollama (snd sv)) (gemini (snd sv)) (mode (snd sv))
                     (active_engine (snd sv)) (Some requested)
                     (model_available (snd sv)) in
  let '(e', available) := llm_initialize (fst sv) p e0 in
  ((fst sv, e'), (model e', available)).

(** ** Vocabulary for the engine manager *)

(** The availability flag of the engine the calls go to. *)
Definition active_available (e : LLMEngine) : bool :=
  match active_engine e with
  | TheOllama => ollama_available (ollama e)
  | TheGemini => gemini_available (gemini e)
  end.

(** The mode names the active engine, and [model] is that engine's
    model identifier. *)
Definition router_ok (e : LLMEngine) : Prop :=
  (mode e = "online" /\ active_engine e = TheGemini
   /\ model e = Some (model_name (gemini e)))
  \/ (mode e = "offline" /\ active_engine e = TheOllama
      /\ model e = Some (ollama_model (ollama e))).

(** A series of [switch_mode] calls, each with the settings and the
    world of its moment. *)
Definition switches (ops : list (Settings * string * Probe)) (e : LLMEngine) : LLMEngine :=
  fold_left (fun e op => fst (switch_mode (fst (fst op)) (snd (fst op)) (snd op) e)) ops e.

(** ** Tool calling by prompt: [generate_with_tools] of both engines *)

(** The dictionary [generate_with_tools] returns: of type [tool_call]
    or of type [text]. *)
Inductive ToolReply : Type :=
| ToolCall : pyval -> pyval -> string -> ToolReply   (* tool, parameters, raw_response *)
| TextReply : string -> ToolReply.                   (* content *)

(** Lines 96-105 of [llm_engine.py], and the same lines 163-177 of
    [gemini_engine.py]: what is made of the text [generate] returned.
    Whatever is raised inside the [try] gives the text reply. *)
Definition tool_reply (json_loads : string -> option pyval) (response : string)
  : ToolReply :=
  if contains "{"%char response && contains "}"%char response then
    match json_loads (slice response (find "{"%char response)
                            (rfind "}"%char response + 1)) with
    | Some (PDict parsed) =>
        match dict_lookup "tool" parsed with
        | Some t => ToolCall t (dict_get parsed "parameters" (PDict [])) response
        | None => TextReply response
        end
    | _ => TextReply response
    end
  else TextReply response.

(** ** [agent.py]: [SimpleAgent.quick_response] *)

(** [sub in s]. *)
Fixpoint occurs (sub s : string) : bool :=
  prefix sub s
  || match s with
     | String _ s' => occurs sub s'
     | EmptyString => false
     end.

(** [s.lstrip()], [s.rstrip()], [s.strip()]. *)
Fixpoint py_lstrip (s : string) : string :=
  match s with
  | String c s' => if is_space c then py_lstrip s' else s
  | EmptyString => EmptyString
  end.

Fixpoint py_rstrip (s : string) : string :=
  match s with
  | EmptyString => EmptyString
  | String c s' =>
      let r := py_rstrip s' in
      if is_space c && String.eqb r "" then EmptyString else String c r
  end.

Definition py_strip (s : string) : string := py_rstrip (py_lstrip s).

(** The dictionary [quick_response] returns: of type [command] or of
    type [text]. *)
Inductive QuickReply : Type :=
| QuickCommand : pyval -> pyval -> string -> QuickReply   (* command, params, message *)
| QuickText : string -> QuickReply.                       (* message *)

(** Lines 304-322: what [quick_response] makes of the text [generate]
    returned.  Whatever is raised inside the [try] gives the text
    reply. *)
Definition quick_reply (json_loads : string -> option pyval) (response : string)
  : QuickReply :=
  if contains "{"%char response && occurs "command" response then
    let start := find "{"%char response in
    let end_ := (rfind "}"%char response + 1)%Z in
    match json_loads (slice response start end_) with
    | Some (PDict data) =>
        QuickCommand (dict_get data "command" PNone)
                     (dict_get data "params" (PDict []))
                     (if (0 <? start)%Z then py_strip (slice response 0 start) else "")
    | _ => QuickText response
    end
  else QuickText response.

(** ** [server.py]: [POST /agent/execute] *)

(** [AgentState.value]. *)
Definition state_value (s : AgentState) : string :=
  match s with
  | IDLE => "idle"
  | THINKING => "thinking"
  | ACTING => "acting"
  | WAITING => "waiting"
  | COMPLETED => "completed"
  | ERROR => "error"
  end.

(** [AgentResponse]; a step dictionary has the fields of an
    [AgentStep]. *)
Record AgentResponse : Type := mkResponse {
  task_id : string;
  status : string;
  response_steps : list AgentStep;
  response_result : pyval;
  response_error : option string
}.

(** The callback of the endpoint appends to a list: it does not raise
    and it does not suspend, so nothing runs during it. *)
Definition with_server_callback (events : nat -> StepEvents) : nat -> StepEvents :=
  fun n =>
    mkEvents (reply (events n)) (stop_during_generate (events n)) None false
             (tool (events n)) (stop_during_tool (events n)).

Section Server.

Variable json_loads : string -> option pyval.
Variable py_str : pyval -> string.
Variable json_dumps : pyval -> string.
(** [str(e)] of an exception. *)
Variable exn_text : exn -> string.

(** The steps [on_step] is awaited with during one iteration (lines
    165-166 of [agent.py]). *)
Definition handed (has_on_step : bool) (n : nat) (ev : StepEvents) : list AgentStep :=
  if has_on_step then
    match _parse_response json_loads (reply ev) n with
    | Ok step => [step]
    | Raise _ => []
    end
  else [].

(** The steps [on_step] is awaited with during the loop, in order. *)
Fixpoint callback_log (has_tool_executor has_on_step : bool)
         (events : nat -> StepEvents) (nums : list nat) (st : RunState)
  : list AgentStep :=
  match nums with
  | [] => []
  | n :: nums' =>
      (handed has_on_step n (events n)
       ++ match iteration json_loads py_str json_dumps has_tool_executor has_on_step
                          n (events n) st with
          | Continue st' => callback_log has_tool_executor has_on_step events nums' st'
          | _ => []
          end)%list
  end.

(** [execute_agent], on the module's [agent]: its [max_steps] is the
    default 10, and [has_tool_executor] says whether its [tool_executor]
    is set.  [task_description], [context] and [request_max_steps] are
    the fields of the request; [uuid] is the task identifier [run]
    draws. *)
Definition execute_agent (has_tool_executor : bool) (uuid task_description : string)
           (context : list (string * pyval)) (request_max_steps : Z)
           (events : nat -> StepEvents) : AgentResponse :=
  let events := with_server_callback events in
  let collected :=
    match build_system_prompt py_str context with
    | Ok _ =>
        callback_log has_tool_executor true events (seq 1 10) (initial task_description)
    | Raise _ => []
    end in
  match run json_loads py_str json_dumps 10 has_tool_executor true
            task_description context events with
  | Returned st =>
      mkResponse uuid (state_value (state (task st))) collected
                 (result (task st)) (error (task st))
  | Thrown e _ => mkResponse "error" "error" collected PNone (Some (exn_text e))
  end.

End Server.


(** ** More scripts and worlds *)

Module Sample.



(** A click, then the answer. *)
Definition click_then_answer : nat -> StepEvents :=
  Scenario.first_then (Scenario.calm Scenario.reply_click)
                      (Scenario.calm Scenario.reply_answer).

(** The step the reply [Scenario.reply_click] parses to. *)
Definition click_step (n : nat) : AgentStep :=
  mkStep n (PStr "locate button") (PStr "click")
         (PDict [("selector", PStr "#login")]) None.

(** Both backends answer. *)
Definition world : Backend :=
  mkBackend (ChatAnswer 200 "hello") (GenaiText "hello").

(** Every reply comes from the manager of [Scenario.engine], whose
    active engine, Gemini, is not available. *)
Definition engine_down : nat -> StepEvents :=
  fun _ => Scenario.calm (llm_generate Scenario.engine world).

(** A reply that calls a tool:
    [Use this. {"tool":"click","parameters":{"selector":"#login"}}] *)
Definition tool_fields : string :=
  quoted "tool" ++ ":" ++ quoted "click" ++ ","
  ++ quoted "parameters" ++ ":{" ++ quoted "selector" ++ ":" ++ quoted "#login" ++ "}".

Definition reply_tool : string := "Use this. {" ++ tool_fields ++ "}".

(** A reply that gives a command:
    [ On it: {"command":"scroll","params":{"direction":"down"}} ok] *)
Definition command_fields : string :=
  quoted "command" ++ ":" ++ quoted "scroll" ++ ","
  ++ quoted "params" ++ ":{" ++ quoted "direction" ++ ":" ++ quoted "down" ++ "}".

Definition reply_command : string := " On it: {" ++ command_fields ++ "} ok".

(** A link and a button as the page script reports them. *)
Definition elements : list (list (string * pyval)) :=
  [[("tag", PStr "a"); ("text", PStr "Sign in"); ("id", PStr "");
    ("href", PStr "https://example.org/login")];
   [("tag", PStr "button"); ("text", PStr "Search"); ("id", PStr "go");
    ("type", PStr "submit")]].

(** The context of a page one of whose links has a number for its
    text. *)
Definition numbered_link : list (string * pyval) :=
  [("url", PStr "https://example.org/");
   ("interactive_elements", PList [PDict [("tag", PStr "a"); ("text", PInt 5)]])].

(** A series of mode switches: to [offline] with Ollama up, then to a
    mode that does not exist, then to [online] without a key. *)
Definition mode_changes : list (Settings * string * Probe) :=
  [(Scenario.settings, "offline", Scenario.local_only);
   (Scenario.settings, "turbo", Scenario.nothing_up);
   (Scenario.settings, "online", Scenario.local_only)].

End Sample.

(** * Properties *)

(** ** The string primitives *)

Lemma find_from_app (c : ascii) (pre s : string) (i : Z) :
  contains c pre = false ->
  find_from c (pre ++ s) i = find_from c s (i + Z.of_nat (length pre))%Z.
Proof.
  revert i. induction pre as [|a pre IH]; intros i H; simpl in *.
  - f_equal. lia.
  - apply orb_false_iff in H as [Ha Hp]. rewrite Ha, IH by assumption.
    f_equal. lia.
Qed.

Lemma find_from_absent (c : ascii) (s : string) (i : Z) :
  contains c s = false -> find_from c s i = (-1)%Z.
Proof.
  revert i. induction s as [|a s IH]; intros i H; simpl in *; [reflexivity|].
  apply orb_false_iff in H as [Ha Hs]. rewrite Ha. now apply IH.
Qed.

Lemma find_from_range (c : ascii) (s : string) (i : Z) :
  find_from c s i = (-1)%Z \/ (i <= find_from c s i)%Z.
Proof.
  revert i. induction s as [|a s IH]; intros i; simpl; [now left|].
  destruct (Ascii.eqb a c); [right; lia|].
  destruct (IH (i + 1)%Z) as [H|H]; [now left | right; lia].
Qed.

Lemma rfind_from_app (c : ascii) (pre s : string) (i last : Z) :
  rfind_from c (pre ++ s) i last =
  rfind_from c s (i + Z.of_nat (length pre))%Z (rfind_from c pre i last).
Proof.
  revert i last. induction pre as [|a pre IH]; intros i last; simpl.
  - f_equal. lia.
  - rewrite IH. f_equal. lia.
Qed.

Lemma rfind_from_absent (c : ascii) (s : string) (i last : Z) :
  contains c s = false -> rfind_from c s i last = last.
Proof.
  revert i last. induction s as [|a s IH]; intros i last H; simpl in *; [reflexivity|].
  apply orb_false_iff in H as [Ha Hs]. rewrite Ha. now apply IH.
Qed.

Lemma rfind_from_bound (c : ascii) (s : string) (i last : Z) :
  (last < i)%Z -> (rfind_from c s i last < i + Z.of_nat (length s))%Z.
Proof.
  revert i last. induction s as [|a s IH]; intros i last H; simpl length; simpl rfind_from.
  - lia.
  - specialize (IH (i + 1)%Z (if Ascii.eqb a c then i else last)).
    destruct (Ascii.eqb a c); lia.
Qed.

Lemma substring_skip (pre s : string) (n : nat) :
  substring (length pre) n (pre ++ s) = substring 0 n s.
Proof. induction pre as [|a pre IH]; simpl; auto. Qed.

Lemma substring_take (x rest : string) :
  substring 0 (length x) (x ++ rest) = x.
Proof.
  induction x as [|a x IH]; simpl.
  - now destruct rest.
  - now rewrite IH.
Qed.

Lemma string_length_app (a b : string) : length (a ++ b) = length a + length b.
Proof. induction a as [|c a IH]; simpl; auto. Qed.

(** The indices the parser computes on a reply with a brace span. *)
Lemma span_indices (pre mid post : string) :
  contains "{"%char pre = false ->
  contains "}"%char post = false ->
  let response := pre ++ String "{"%char (mid ++ String "}"%char post) in
  find "{"%char response = Z.of_nat (length pre) /\
  rfind "}"%char response = Z.of_nat (length pre + 1 + length mid) /\
  slice response (find "{"%char response) (rfind "}"%char response + 1)
  = String "{"%char (mid ++ String "}"%char "").
Proof.
  intros Hpre Hpost response.
  assert (Hf : find "{"%char response = Z.of_nat (length pre)).
  { unfold find, response. rewrite find_from_app by assumption. simpl. lia. }
  assert (Hr : rfind "}"%char response = Z.of_nat (length pre + 1 + length mid)).
  { unfold rfind, response. rewrite rfind_from_app. simpl rfind_from.
    rewrite rfind_from_app. simpl rfind_from.
    rewrite rfind_from_absent by assumption. lia. }
  repeat split; try assumption.
  unfold slice. rewrite Hf, Hr, Nat2Z.id.
  replace (Z.to_nat (Z.of_nat (length pre + 1 + length mid) + 1 - Z.of_nat (length pre)))
    with (S (length (mid ++ String "}"%char ""))) by (rewrite string_length_app; simpl; lia).
  unfold response. rewrite substring_skip. simpl. f_equal.
  assert (E : mid ++ String "}"%char post = (mid ++ String "}"%char "") ++ post).
  { clear. induction mid as [|a mid IH]; simpl; [reflexivity | now rewrite IH]. }
  rewrite E. apply substring_take.
Qed.

(** On a reply whose last closing brace, if any, comes before its first
    opening brace, if any, the guard of the parser fails. *)
Lemma no_span_guard (pre post : string) :
  contains "{"%char pre = false ->
  contains "}"%char post = false ->
  let response := pre ++ post in
  ((0 <=? find "{"%char response)%Z
   && (find "{"%char response <? rfind "}"%char response + 1)%Z) = false.
Proof.
  intros Hpre Hpost response. unfold find, rfind, response.
  rewrite find_from_app by assumption. rewrite rfind_from_app.
  rewrite rfind_from_absent by assumption.
  pose proof (rfind_from_bound "}"%char pre 0 (-1)) as Hb.
  destruct (find_from_range "{"%char post (0 + Z.of_nat (length pre))) as [H|H].
  - rewrite H. reflexivity.
  - apply andb_false_iff. right. apply Z.ltb_ge. lia.
Qed.

(** ** The response parser *)

Section ParserFacts.

Variable json_loads : string -> option pyval.




End ParserFacts.

(** ** The phases of one iteration *)

Section LoopFacts.

Variable json_loads : string -> option pyval.
Variable py_str : pyval -> string.
Variable json_dumps : pyval -> string.
Variable max_steps : nat.
Variable has_tool_executor : bool.
Variable has_on_step : bool.
Variable context : list (string * pyval).

Local Abbreviation iteration := (iteration json_loads py_str json_dumps has_tool_executor has_on_step).
Local Abbreviation loop := (loop json_loads py_str json_dumps has_tool_executor has_on_step).
Local Abbreviation run desc events :=
  (run json_loads py_str json_dumps max_steps has_tool_executor has_on_step desc context events).
Local Abbreviation act := (act py_str json_dumps has_tool_executor).
Local Abbreviation record_step := (record_step has_on_step).
Local Abbreviation on_step_error := (on_step_error has_on_step).

Lemma observe_last_snoc (o : string) (t : AgentTask) (l : list AgentStep) (s : AgentStep) :
  steps t = (l ++ [s])%list ->
  steps (observe_last o t) = (l ++ [set_observation o s])%list.
Proof.
  intros E. unfold observe_last. simpl. rewrite E, removelast_last, rev_unit.
  reflexivity.
Qed.

Lemma think_facts (ev : StepEvents) (st : RunState) :
  let st' := think ev st in
  prompts st' = (prompts st ++ [join (nl ++ nl) (messages st)])%list
  /\ messages st' = messages st
  /\ steps (task st') = steps (task st)
  /\ result (task st') = result (task st)
  /\ state (task st') = (if stop_during_generate ev then ERROR else THINKING)
  /\ error (task st') =
       (if stop_during_generate ev then Some cancel_message else error (task st)).
Proof. unfold think, stopped. destruct (stop_during_generate ev); simpl; intuition. Qed.

Lemma record_step_facts (ev : StepEvents) (step : AgentStep) (st : RunState) :
  let st' := record_step ev step st in
  prompts st' = prompts st
  /\ messages st' = messages st
  /\ steps (task st') = (steps (task st) ++ [step])%list
  /\ result (task st') = result (task st)
  /\ state (task st') =
       (if has_on_step && stop_during_on_step ev then ERROR else state (task st))
  /\ error (task st') =
       (if has_on_step && stop_during_on_step ev then Some cancel_message
        else error (task st)).
Proof.
  unfold Agent.record_step, stopped.
  destruct has_on_step, (stop_during_on_step ev); simpl; intuition.
Qed.

(** The action phase keeps the prompts, touches only the observation of
    the step just appended, and never completes the task. *)
Lemma act_facts (n : nat) (ev : StepEvents) (step : AgentStep) (st : RunState)
      (l : list AgentStep) :
  steps (task st) = (l ++ [step])%list ->
  let st' := act n ev step st in
  prompts st' = prompts st
  /\ (exists o, steps (task st') = (l ++ [mkStep (step_number step) (thought step)
                                                (action step) (action_input step) o])%list)
  /\ result (task st') = result (task st)
  /\ (state (task st) <> COMPLETED -> state (task st') <> COMPLETED).
Proof.
  intros E. destruct st as [[d ss s r e] ms ps]. simpl in E. subst ss.
  unfold Agent.act, stopped.
  destruct (truthy (action step) && has_tool_executor), (tool ev),
    (stop_during_tool ev), (is_None (action step)); simpl;
    rewrite ?removelast_last, ?rev_unit; simpl;
    (repeat split;
     [ eexists; try reflexivity; instantiate (1 := observation step); now destruct step
     | congruence ]).
Qed.

Lemma finish_dict (step : AgentStep) (st : RunState) (d : list (string * pyval)) :
  action_input step = PDict d ->
  finish step st
  = Break (on_task (set_result (dict_get d "message" (PStr "Task completed")))
                   (on_task (set_state COMPLETED) st)).
Proof. intros E. unfold finish. now rewrite E. Qed.

Lemma finish_shape (step : AgentStep) (st : RunState) :
  match finish step st with
  | Continue _ => False
  | Break st' =>
      state (task st') = COMPLETED /\ prompts st' = prompts st
      /\ steps (task st') = steps (task st)
  | Raised e st' =>
      e = AttributeError /\ prompts st' = prompts st
      /\ steps (task st') = steps (task st)
  end.
Proof. unfold finish. destruct (action_input step); simpl; auto. Qed.

(** After the provider call and the callback the task is thinking, or
    was stopped. *)
Lemma recorded_state (ev : StepEvents) (step : AgentStep) (st : RunState) :
  state (task (record_step ev step (think ev st)))
  = if stop_requested has_on_step ev then ERROR else THINKING.
Proof.
  destruct (record_step_facts ev step (think ev st)) as (_ & _ & _ & _ & Hs & _).
  destruct (think_facts ev st) as (_ & _ & _ & _ & Ht & _).
  rewrite Hs, Ht. unfold stop_requested.
  now destruct (stop_during_generate ev), has_on_step, (stop_during_on_step ev).
Qed.

Lemma recorded_steps (ev : StepEvents) (step : AgentStep) (st : RunState) :
  steps (task (record_step ev step (think ev st))) = (steps (task st) ++ [step])%list.
Proof.
  destruct (record_step_facts ev step (think ev st)) as (_ & _ & Hs & _).
  destruct (think_facts ev st) as (_ & _ & Ht & _).
  now rewrite Hs, Ht.
Qed.

Lemma recorded_prompts (ev : StepEvents) (step : AgentStep) (st : RunState) :
  prompts (record_step ev step (think ev st))
  = (prompts st ++ [join (nl ++ nl) (messages st)])%list.
Proof.
  destruct (record_step_facts ev step (think ev st)) as (Hs & _).
  destruct (think_facts ev st) as (Ht & _).
  now rewrite Hs, Ht.
Qed.

Lemma iteration_other (n : nat) (ev : StepEvents) (st : RunState) (step : AgentStep) :
  _parse_response json_loads (reply ev) n = Ok step ->
  on_step_error ev = None ->
  terminal step = false ->
  iteration n ev st = Continue (act n ev step (record_step ev step (think ev st))).
Proof.
  intros Hp Hc Ht. unfold Agent.iteration. cbv zeta. now rewrite Hp, Hc, Ht.
Qed.

Lemma iteration_answer (n : nat) (ev : StepEvents) (st : RunState) (step : AgentStep) :
  _parse_response json_loads (reply ev) n = Ok step ->
  on_step_error ev = None ->
  terminal step = true ->
  iteration n ev st = finish step (record_step ev step (think ev st)).
Proof.
  intros Hp Hc Ht. unfold Agent.iteration. cbv zeta. now rewrite Hp, Hc, Ht.
Qed.

Lemma iteration_callback (n : nat) (ev : StepEvents) (st : RunState) (step : AgentStep)
      (e : string) :
  _parse_response json_loads (reply ev) n = Ok step ->
  on_step_error ev = Some e ->
  iteration n ev st = Raised (CallbackError e) (record_step ev step (think ev st)).
Proof.
  intros Hp Hc. unfold Agent.iteration. cbv zeta. now rewrite Hp, Hc.
Qed.

(** Every iteration calls the provider once; one that does not raise in
    the parser appends one step; only the terminal action breaks the
    loop, and only with the task completed. *)
Lemma iteration_shape (n : nat) (ev : StepEvents) (st : RunState) :
  match iteration n ev st with
  | Continue st' =>
      List.length (prompts st') = S (List.length (prompts st))
      /\ List.length (steps (task st')) = S (List.length (steps (task st)))
      /\ state (task st') <> COMPLETED
      /\ exists step, _parse_response json_loads (reply ev) n = Ok step
                      /\ terminal step = false
  | Break st' =>
      List.length (prompts st') = S (List.length (prompts st))
      /\ List.length (steps (task st')) = S (List.length (steps (task st)))
      /\ state (task st') = COMPLETED
      /\ exists step, _parse_response json_loads (reply ev) n = Ok step
                      /\ terminal step = true
  | Raised e st' =>
      List.length (prompts st') = S (List.length (prompts st))
  end.
Proof.
  destruct (_parse_response json_loads (reply ev) n) as [step|e] eqn:Hp.
  - destruct (on_step_error ev) as [e|] eqn:Hc.
    + rewrite (iteration_callback n ev st step e Hp Hc).
      rewrite recorded_prompts, List.length_app. simpl. lia.
    + destruct (terminal step) eqn:Ht.
      * rewrite (iteration_answer n ev st step Hp Hc Ht).
        pose proof (finish_shape step (record_step ev step (think ev st))) as H.
        destruct (finish step _) as [st'|st'|e st']; [contradiction | |];
          destruct H as (H1 & H2 & H3); rewrite H2, ?H3, recorded_prompts,
            ?recorded_steps, !List.length_app; simpl;
          repeat split; try lia; try assumption.
        exists step. now split.
      * rewrite (iteration_other n ev st step Hp Hc Ht).
        destruct (act_facts n ev step (record_step ev step (think ev st))
                            (steps (task st)) (recorded_steps ev step st))
          as (H1 & (o & H2) & _ & H4).
        rewrite H1, H2, recorded_prompts, !List.length_app. simpl.
        repeat split; try lia.
        -- apply H4. rewrite recorded_state. now destruct (stop_requested _ _).
        -- exists step. now split.
  - unfold Agent.iteration. cbv zeta. rewrite Hp.
    destruct (think_facts ev st) as (H & _). rewrite H, List.length_app. simpl. lia.
Qed.

(** ** The loop *)

Variable events : nat -> StepEvents.

Lemma loop_app (a b : list nat) (st : RunState) :
  loop events (a ++ b) st
  = match loop events a st with
    | Continue st' => loop events b st'
    | c => c
    end.
Proof.
  revert st. induction a as [|n a IH]; intros st; simpl; [reflexivity|].
  destruct (iteration n (events n) st); auto.
Qed.

(** What the loop has done when it is left, by the way it is left. *)
Lemma loop_shape (nums : list nat) (st : RunState) :
  match loop events nums st with
  | Continue st' =>
      List.length (prompts st') = List.length (prompts st) + List.length nums
      /\ List.length (steps (task st')) = List.length (steps (task st)) + List.length nums
      /\ (state (task st) <> COMPLETED -> state (task st') <> COMPLETED)
      /\ Forall (chooses_other json_loads events) nums
  | Break st' =>
      state (task st') = COMPLETED
      /\ exists pre n post step,
          nums = (pre ++ n :: post)%list
          /\ Forall (chooses_other json_loads events) pre
          /\ _parse_response json_loads (reply (events n)) n = Ok step
          /\ terminal step = true
          /\ List.length (prompts st') = List.length (prompts st) + S (List.length pre)
          /\ List.length (steps (task st')) = List.length (steps (task st)) + S (List.length pre)
  | Raised e st' =>
      List.length (prompts st) < List.length (prompts st')
      /\ List.length (prompts st') <= List.length (prompts st) + List.length nums
  end.
Proof.
  revert st. induction nums as [|n nums IH]; intros st; simpl.
  - repeat split; auto.
  - pose proof (iteration_shape n (events n) st) as Hi.
    destruct (iteration n (events n) st) as [st1|st1|e st1].
    + destruct Hi as (Hp & Hs & Hc & Ho).
      specialize (IH st1).
      destruct (loop events nums st1) as [st2|st2|e st2].
      * destruct IH as (H1 & H2 & H3 & H4).
        repeat split; try lia; auto.
      * destruct IH as (H1 & pre & m & post & step & E & Hf & Hq & Ht & H2 & H3).
        split; [assumption|].
        exists (n :: pre), m, post, step. simpl.
        repeat split; try assumption; try lia.
        -- now rewrite E.
        -- now constructor.
      * lia.
    + destruct Hi as (Hp & Hs & Hc & step & Hq & Ht).
      split; [assumption|].
      exists [], n, nums, step. simpl. repeat split; auto; lia.
    + lia.
Qed.

(** Steps that parse, choose something else than the terminal action
    and whose callback returns are all taken. *)
Lemma loop_quiet (nums : list nat) (st : RunState) :
  Forall (fun n => chooses_other json_loads events n
                   /\ on_step_error (events n) = None) nums ->
  exists st',
    loop events nums st = Continue st'
    /\ List.length (prompts st') = List.length (prompts st) + List.length nums
    /\ List.length (steps (task st')) = List.length (steps (task st)) + List.length nums
    /\ (state (task st) <> COMPLETED -> state (task st') <> COMPLETED).
Proof.
  intros H. revert st. induction H as [|n nums [(step & Hp & Ht) Hc] _ IH]; intros st.
  - exists st. simpl. repeat split; auto.
  - simpl. pose proof (iteration_shape n (events n) st) as Hi.
    rewrite (iteration_other n (events n) st step Hp Hc Ht) in *.
    destruct Hi as (H1 & H2 & H3 & _).
    destruct (IH (act n (events n) step (record_step (events n) step (think (events n) st))))
      as (st' & E & H4 & H5 & H6).
    exists st'. repeat split; auto; lia.
Qed.

Lemma final_check_state (t : AgentTask) :
  (state t = COMPLETED /\ final_check t = t)
  \/ (state t <> COMPLETED
      /\ final_check t = set_error max_steps_message (set_state ERROR t)).
Proof.
  unfold final_check. destruct (state t); simpl; auto; right; split; congruence.
Qed.

Lemma run_returned (desc : string) (st : RunState) :
  run desc events = Returned st ->
  exists st0,
    (loop events (seq 1 max_steps) (initial desc) = Continue st0
     \/ loop events (seq 1 max_steps) (initial desc) = Break st0)
    /\ st = on_task final_check st0.
Proof.
  unfold Agent.run.
  destruct (build_system_prompt py_str context) as [prompt|e0]; [|discriminate].
  destruct (loop events (seq 1 max_steps) (initial desc)) as [st0|st0|e st0];
    intros E; inversion E; eauto.
Qed.

(** ** Runs *)

(** C3: when no step from 1 to [max_steps] parses to the terminal
    action, a task that [run] returns is in state [error] with the
    max-steps text, holds exactly [max_steps] steps, and was reached with
    exactly [max_steps] provider calls; and [run] does return one when
    building the system prompt from the context does not raise, every
    reply parses to a step and the callback, if given, never raises. *)
Theorem run_exhausts_budget (desc : string) :
  (forall n step,
      1 <= n <= max_steps ->
      _parse_response json_loads (reply (events n)) n = Ok step ->
      terminal step = false) ->
  (forall st,
      run desc events = Returned st ->
      state (task st) = ERROR
      /\ error (task st) = Some max_steps_message
      /\ List.length (steps (task st)) = max_steps
      /\ List.length (prompts st) = max_steps)
  /\ (prompt_ok py_str context ->
      (forall n, 1 <= n <= max_steps ->
                 (exists step, _parse_response json_loads (reply (events n)) n = Ok step)
                 /\ on_step_error (events n) = None) ->
      exists st, run desc events = Returned st).
Proof.
  intros Hno. split.
  - intros st Hr. apply run_returned in Hr as (st0 & Hl & ->).
    pose proof (loop_shape (seq 1 max_steps) (initial desc)) as Hs.
    destruct Hl as [Hl|Hl]; rewrite Hl in Hs.
    + destruct Hs as (Hp & Hst & Hc & _). rewrite length_seq in *. simpl in Hp, Hst.
      assert (Hn : state (task st0) <> COMPLETED) by (apply Hc; simpl; congruence).
      destruct (final_check_state (task st0)) as [[E _]|[_ E]]; [contradiction|].
      simpl. rewrite E. simpl. auto.
    + destruct Hs as (_ & pre & n & post & step & E & _ & Hq & Ht & _).
      assert (Hin : In n (seq 1 max_steps)) by (rewrite E; apply in_elt).
      apply in_seq in Hin. rewrite (Hno n step) in Ht; [discriminate | lia | assumption].
  - intros [prompt Hb] Hq.
    destruct (loop_quiet (seq 1 max_steps) (initial desc)) as (st' & E & _).
    { apply Forall_forall. intros n Hin. apply in_seq in Hin.
      destruct (Hq n) as ((step & Hp) & Hc); [lia|].
      split; [|assumption]. exists step. split; [assumption|].
      apply (Hno n); [lia | assumption]. }
    unfold Agent.run. rewrite Hb, E. eauto.
Qed.

(** The numbers from 1 to [n] around one of them. *)
Lemma seq_around (k n : nat) :
  1 <= k <= n -> seq 1 n = (seq 1 (k - 1) ++ k :: seq (S k) (n - k))%list.
Proof.
  intros H. replace n with ((k - 1) + S (n - k)) at 1 by lia.
  rewrite seq_app. f_equal. replace (1 + (k - 1)) with k by lia. reflexivity.
Qed.

(** The loop up to step [k] when the steps before it are taken quietly. *)
Lemma loop_up_to (desc : string) (k : nat) :
  1 <= k <= max_steps ->
  (forall j, 1 <= j < k -> chooses_other json_loads events j) ->
  (forall j, 1 <= j < k -> on_step_error (events j) = None) ->
  exists st1,
    loop events (seq 1 max_steps) (initial desc)
    = match iteration k (events k) st1 with
      | Continue st' => loop events (seq (S k) (max_steps - k)) st'
      | c => c
      end
    /\ List.length (prompts st1) = k - 1
    /\ List.length (steps (task st1)) = k - 1.
Proof.
  intros Hk Ho Hc.
  destruct (loop_quiet (seq 1 (k - 1)) (initial desc)) as (st1 & E & Hp & Hs & _).
  { apply Forall_forall. intros j Hin. apply in_seq in Hin.
    split; [apply Ho | apply Hc]; lia. }
  exists st1. rewrite (seq_around k max_steps Hk), loop_app, E.
  rewrite length_seq in *. simpl in *. auto.
Qed.

(** C2, as amended: when building the system prompt from the context
    does not raise, step [k] is the first to parse to the terminal
    action, its parameters are an object, and the callback, if given,
    does not raise up to step [k], then [run] returns a completed task
    whose result is the object's [message], or the text [Task completed]
    when the object has none, with exactly [k] steps and after exactly
    [k] provider calls. *)
Theorem run_answers (desc : string) (k : nat) (d : list (string * pyval)) :
  prompt_ok py_str context ->
  1 <= k <= max_steps ->
  (forall j, 1 <= j < k -> chooses_other json_loads events j) ->
  (forall j, 1 <= j <= k -> on_step_error (events j) = None) ->
  chooses_answer json_loads events k (PDict d) ->
  exists st,
    run desc events = Returned st
    /\ state (task st) = COMPLETED
    /\ result (task st) = dict_get d "message" (PStr "Task completed")
    /\ (forall m, dict_lookup "message" d = Some m -> result (task st) = m)
    /\ List.length (steps (task st)) = k
    /\ List.length (prompts st) = k.
Proof.
  intros [prompt Hb] Hk Ho Hc (step & Hp & Ht & Hd).
  destruct (loop_up_to desc k Hk Ho) as (st1 & E & Hp1 & Hs1).
  { intros j Hj. apply Hc. lia. }
  assert (Hck : on_step_error (events k) = None) by (apply Hc; lia).
  rewrite (iteration_answer k (events k) st1 step Hp Hck Ht) in E.
  rewrite (finish_dict step _ d Hd) in E.
  eexists. unfold Agent.run. rewrite Hb, E. split; [reflexivity|].
  simpl. rewrite recorded_steps, recorded_prompts, !List.length_app. simpl.
  repeat split; try lia.
  intros m Hm. unfold dict_get. now rewrite Hm.
Qed.

(** C7, as amended: when the callback raises on step [k], the steps
    before it having been taken, no task is returned; the exception of
    the callback leaves [run], step [k] is the last step appended, and
    the provider was called exactly [k] times (an exception while the
    system prompt is built leaves [run] before step 1 instead). *)
Theorem callback_failure_aborts (desc : string) (k : nat) (e : string) :
  1 <= k <= max_steps ->
  (forall j, 1 <= j < k -> chooses_other json_loads events j) ->
  (forall j, 1 <= j < k -> on_step_error (events j) = None) ->
  (exists step, _parse_response json_loads (reply (events k)) k = Ok step) ->
  on_step_error (events k) = Some e ->
  (forall st, run desc events <> Returned st)
  /\ (prompt_ok py_str context ->
      exists st,
        run desc events = Thrown (CallbackError e) st
        /\ List.length (steps (task st)) = k
        /\ List.length (prompts st) = k).
Proof.
  intros Hk Ho Hc (step & Hp) He.
  destruct (loop_up_to desc k Hk Ho Hc) as (st1 & E & Hp1 & Hs1).
  rewrite (iteration_callback k (events k) st1 step e Hp He) in E.
  split.
  - intros st. unfold Agent.run.
    destruct (build_system_prompt py_str context); [rewrite E|]; discriminate.
  - intros [prompt Hb].
    eexists. unfold Agent.run. rewrite Hb, E. split; [reflexivity|].
    rewrite recorded_steps, recorded_prompts, !List.length_app. simpl. lia.
Qed.


(** C6: when the tool executor call of step [n] raises, the iteration
    still ends normally: the step appended carries the observation
    [Error executing <action>: <text>], the same text goes into the
    transcript, the task is in state [error], and with a step [m] left in
    the budget the loop goes on with the iteration of [m], which resets
    the state to [thinking] before it calls the provider. *)
Theorem tool_failure_is_caught (n m : nat) (rest : list nat) (st : RunState)
        (step : AgentStep) (e : string) :
  _parse_response json_loads (reply (events n)) n = Ok step ->
  on_step_error (events n) = None ->
  terminal step = false ->
  truthy (action step) = true ->
  has_tool_executor = true ->
  tool (events n) = ToolRaised e ->
  let o := "Error executing " ++ py_str (action step) ++ ": " ++ e in
  exists st',
    iteration n (events n) st = Continue st'
    /\ state (task st') = ERROR
    /\ steps (task st') = (steps (task st) ++ [set_observation o step])%list
    /\ messages st' = (messages st ++ [history_entry py_str json_dumps n step o])%list
    /\ loop events (n :: m :: rest) st
       = match iteration m (events m) st' with
         | Continue st'' => loop events rest st''
         | c => c
         end
    /\ List.length (prompts (think (events m) st')) = S (S (List.length (prompts st)))
    /\ (stop_during_generate (events m) = false ->
        state (task (think (events m) st')) = THINKING).
Proof.
  intros Hp Hc Ht Ha Hx Htool o.
  exists (act n (events n) step (record_step (events n) step (think (events n) st))).
  assert (Hi := iteration_other n (events n) st step Hp Hc Ht).
  assert (Hnone : is_None (action step) = false) by (destruct (action step); auto; discriminate).
  pose proof (recorded_steps (events n) step st) as Hsteps.
  pose proof (recorded_prompts (events n) step st) as Hprompts.
  destruct (record_step_facts (events n) step (think (events n) st))
    as (_ & Hm & _).
  destruct (think_facts (events n) st) as (_ & Hm' & _).
  set (st1 := record_step (events n) step (think (events n) st)) in *.
  assert (Hact : act n (events n) step st1
                 = push_message (history_entry py_str json_dumps n step o)
                     (on_task (set_state ERROR)
                        (on_task (observe_last o)
                           (stopped (stop_during_tool (events n))
                              (on_task (set_state ACTING) st1))))).
  { unfold Agent.act. rewrite Ha, Hx, Htool, Hnone. reflexivity. }
  rewrite Hact.
  assert (Hs2 : steps (task (stopped (stop_during_tool (events n))
                                     (on_task (set_state ACTING) st1)))
                = (steps (task st) ++ [step])%list)
    by (unfold stopped; destruct (stop_during_tool (events n)); simpl; exact Hsteps).
  repeat split.
  - rewrite <- Hact. exact Hi.
  - simpl. exact (observe_last_snoc o _ _ _ Hs2).
  - simpl. unfold stopped. destruct (stop_during_tool (events n)); simpl; congruence.
  - simpl. rewrite Hi, Hact. reflexivity.
  - destruct (think_facts (events m)
                (push_message (history_entry py_str json_dumps n step o)
                   (on_task (set_state ERROR)
                      (on_task (observe_last o)
                         (stopped (stop_during_tool (events n))
                            (on_task (set_state ACTING) st1)))))) as (H & _).
    rewrite H, List.length_app. simpl.
    unfold stopped. destruct (stop_during_tool (events n)); simpl;
      rewrite Hprompts, List.length_app; simpl; lia.
  - intros Hstop.
    destruct (think_facts (events m)
                (push_message (history_entry py_str json_dumps n step o)
                   (on_task (set_state ERROR)
                      (on_task (observe_last o)
                         (stopped (stop_during_tool (events n))
                            (on_task (set_state ACTING) st1)))))) as (_ & _ & _ & _ & H & _).
    now rewrite H, Hstop.
Qed.


(** C10: a task that [run] returns in state [error] carries the
    max-steps text and no other, in particular not the cancellation
    text, whatever happened during the run; and an [error] state left by
    a tool failure or a stop request is reset by the next iteration,
    which calls the provider with the task in state [thinking]. *)
Theorem returned_error_is_max_steps (desc : string) :
  (forall st,
      run desc events = Returned st ->
      state (task st) = ERROR ->
      error (task st) = Some max_steps_message
      /\ error (task st) <> Some cancel_message)
  /\ (forall st n,
         state (task st) = ERROR ->
         stop_during_generate (events n) = false ->
         state (task (think (events n) st)) = THINKING
         /\ List.length (prompts (think (events n) st)) = S (List.length (prompts st))).
Proof.
  split.
  - intros st Hr Herr. apply run_returned in Hr as (st0 & _ & ->). simpl in *.
    destruct (final_check_state (task st0)) as [[E1 E2]|[_ E]].
    + rewrite E2 in Herr. congruence.
    + rewrite E. simpl. split; [reflexivity | discriminate].
  - intros st n _ Hs.
    destruct (think_facts (events n) st) as (Hp & _ & _ & _ & H & _).
    rewrite H, Hs, Hp, List.length_app. simpl. split; [reflexivity | lia].
Qed.

End LoopFacts.

(** ** The parser, as the specification describes it *)


(** ** The engine manager *)

(** C5: [switch_mode] returns [True] exactly when its target names an
    adapter and that adapter's [initialize] succeeds, and then the mode
    is the target and the active adapter the one it names; when it
    returns [False] the mode, the active adapter, the model identifier
    and the availability flag are what they were. *)
Theorem switch_mode_all_or_nothing
        (settings : Settings) (target : string) (p : Probe) (e : LLMEngine) :
  let r := switch_mode settings target p e in
  (snd r = true <->
   exists a, adapter_of target = Some a /\ initializes settings a p e = true)
  /\ (snd r = true ->
      mode (fst r) = target /\ adapter_of target = Some (active_engine (fst r)))
  /\ (snd r = false ->
      mode (fst r) = mode e
      /\ active_engine (fst r) = active_engine e
      /\ model (fst r) = model e
      /\ model_available (fst r) = model_available e).
Proof.
  unfold switch_mode, adapter_of, initializes.
  destruct (String.eqb target "online") eqn:Eon.
  - apply String.eqb_eq in Eon. subst target.
    destruct (gemini_initialize settings p (gemini e)) as [g ok]. simpl.
    destruct ok; simpl; repeat split; auto; try discriminate.
    + exists TheGemini. auto.
    + intros (a & Ha & Hi). inversion Ha. subst a. exact Hi.
  - destruct (String.eqb target "offline") eqn:Eoff.
    + apply String.eqb_eq in Eoff. subst target.
      destruct (ollama_initialize settings p (ollama e)) as [o ok]. simpl.
      destruct ok; simpl; repeat split; auto; try discriminate.
      * exists TheOllama. auto.
      * intros (a & Ha & Hi). inversion Ha. subst a. exact Hi.
    + simpl. repeat split; auto; try discriminate.
      intros (a & Ha & _). discriminate.
Qed.

(** * Worked runs *)

(** The scenario of the specification: a click, then the answer. *)
Lemma run_answers_witness :
  exists st,
    Scenario.run 3 true false Scenario.instruction
                 (Scenario.first_then (Scenario.calm Scenario.reply_click)
                                      (Scenario.calm Scenario.reply_answer))
    = Returned st
    /\ state (task st) = COMPLETED
    /\ result (task st) = PStr "Clicked login"
    /\ List.length (steps (task st)) = 2
    /\ List.length (prompts st) = 2.
Proof.
  destruct (run_answers Json.loads Json.str Json.dumps 3 true false
              Scenario.page
              (Scenario.first_then (Scenario.calm Scenario.reply_click)
                                   (Scenario.calm Scenario.reply_answer))
              Scenario.instruction 2 [("message", PStr "Clicked login")])
    as (st & Hr & Hs & Hres & _ & Hn & Hp).
  - eexists. reflexivity.
  - lia.
  - intros j Hj. assert (j = 1) as -> by lia.
    eexists. split; reflexivity.
  - intros j _. reflexivity.
  - eexists. repeat split; reflexivity.
  - exists st. repeat split; assumption.
Defined.

(** Two steps of clicking with a budget of two. *)
Lemma run_exhausts_budget_witness :
  exists st,
    Scenario.run 2 true false Scenario.instruction
                 (Scenario.always (Scenario.calm Scenario.reply_click))
    = Returned st
    /\ state (task st) = ERROR
    /\ error (task st) = Some max_steps_message
    /\ List.length (steps (task st)) = 2
    /\ List.length (prompts st) = 2.
Proof.
  destruct (run_exhausts_budget Json.loads Json.str Json.dumps 2 true false
              Scenario.page
              (Scenario.always (Scenario.calm Scenario.reply_click))
              Scenario.instruction) as [H1 H2].
  - intros n step _ Hp. vm_compute in Hp. inversion Hp. reflexivity.
  - destruct H2 as [st Hst].
    + eexists. reflexivity.
    + intros n _. split; [eexists|]; reflexivity.
    + exists st. split; [exact Hst | exact (H1 st Hst)].
Defined.

(** The callback raises on the first of three steps. *)
Lemma callback_failure_aborts_witness :
  exists st,
    Scenario.run 3 true true Scenario.instruction
                 (Scenario.first_then Scenario.callback_fails
                                      (Scenario.calm Scenario.reply_answer))
    = Thrown (CallbackError "connection closed") st
    /\ List.length (steps (task st)) = 1
    /\ List.length (prompts st) = 1.
Proof.
  apply (callback_failure_aborts Json.loads Json.str Json.dumps 3 true true
           Scenario.page
           (Scenario.first_then Scenario.callback_fails
                                (Scenario.calm Scenario.reply_answer))
           Scenario.instruction 1 "connection closed").
  - lia.
  - intros j Hj. lia.
  - intros j Hj. lia.
  - eexists. reflexivity.
  - reflexivity.
  - eexists. reflexivity.
Defined.

(** C7, the statement of the specification: with the callback raising
    on the first of three steps, no task is returned. *)
Lemma callback_claim_fails :
  (exists st,
      Scenario.run 3 true true Scenario.instruction
                   (Scenario.first_then Scenario.callback_fails
                                        (Scenario.calm Scenario.reply_answer))
      = Thrown (CallbackError "connection closed") st
      /\ List.length (prompts st) = 1)
  /\ ~ spec_callback_claim Json.loads Json.str Json.dumps 3 true true
         Scenario.instruction Scenario.page
         (Scenario.first_then Scenario.callback_fails
                              (Scenario.calm Scenario.reply_answer))
         1.
Proof.
  split; [eexists; repeat split; reflexivity|].
  intros H. destruct H as (st & Hr & _).
  - discriminate.
  - vm_compute in Hr. discriminate.
Qed.

(** C2, the statement of the specification: the terminal action without
    parameters completes the task with the default text, which is no
    parameter of the action. *)
Lemma terminal_claim_fails_without_message :
  (exists st,
      Scenario.run 3 true false Scenario.instruction
                   (Scenario.always (Scenario.calm Scenario.reply_answer_bare))
      = Returned st
      /\ state (task st) = COMPLETED
      /\ result (task st) = PStr "Task completed")
  /\ ~ spec_terminal_claim Json.loads Json.str Json.dumps 3 true false
         Scenario.instruction Scenario.page
         (Scenario.always (Scenario.calm Scenario.reply_answer_bare))
         1.
Proof.
  split; [eexists; repeat split; reflexivity|].
  intros H.
  destruct (H (mkStep 1 (PStr "done") (PStr "answer_user") (PDict []) None)
              eq_refl eq_refl) as (st & _ & _ & (d & Hd & Hm) & _).
  simpl in Hd. inversion Hd. subst d. discriminate.
Qed.

(** The executor raises on the first step and a second step is left. *)
Lemma tool_failure_is_caught_witness :
  exists st',
    iteration Json.loads Json.str Json.dumps true false 1 Scenario.tool_fails
              (initial Scenario.instruction)
    = Continue st'
    /\ state (task st') = ERROR
    /\ steps (task st')
       = [mkStep 1 (PStr "locate button") (PStr "click")
                 (PDict [("selector", PStr "#login")])
                 (Some "Error executing click: no element matches #login")]
    /\ List.length (prompts (think (Scenario.calm Scenario.reply_answer) st')) = 2
    /\ state (task (think (Scenario.calm Scenario.reply_answer) st')) = THINKING.
Proof.
  destruct (tool_failure_is_caught Json.loads Json.str Json.dumps true false
              (Scenario.first_then Scenario.tool_fails
                                   (Scenario.calm Scenario.reply_answer))
              1 2 [] (initial Scenario.instruction)
              (mkStep 1 (PStr "locate button") (PStr "click")
                      (PDict [("selector", PStr "#login")]) None)
              "no element matches #login")
    as (st' & Hi & Hs & Hsteps & _ & _ & Hp & Ht);
    try reflexivity.
  exists st'.
  split; [exact Hi|]. split; [exact Hs|]. split; [exact Hsteps|].
  split; [exact Hp|]. apply Ht. reflexivity.
Defined.



(** A run whose first tool call fails and during whose second step
    [stop] is called. *)
Lemma returned_error_is_max_steps_witness :
  exists st,
    Scenario.run 2 true false Scenario.instruction
                 (Scenario.first_then Scenario.tool_fails Scenario.stop_early)
    = Returned st
    /\ state (task st) = ERROR
    /\ error (task st) = Some max_steps_message.
Proof.
  destruct (returned_error_is_max_steps Json.loads Json.str Json.dumps 2 true false
              Scenario.page
              (Scenario.first_then Scenario.tool_fails Scenario.stop_early)
              Scenario.instruction) as [H _].
  eexists. split; [reflexivity|]. split; [reflexivity|].
  refine (proj1 (H _ _ _)); reflexivity.
Defined.


(** Switching to [offline] with Ollama up succeeds; switching to
    [online] without a key, or to [offline] with Ollama down, fails and
    changes nothing. *)
Lemma switch_mode_all_or_nothing_witness :
  (snd (switch_mode Scenario.settings "offline" Scenario.local_only Scenario.engine) = true
   /\ mode (fst (switch_mode Scenario.settings "offline" Scenario.local_only
                             Scenario.engine)) = "offline")
  /\ (snd (switch_mode Scenario.settings "online" Scenario.local_only Scenario.engine) = false
      /\ active_engine (fst (switch_mode Scenario.settings "online" Scenario.local_only
                                         Scenario.engine)) = TheGemini)
  /\ (snd (switch_mode Scenario.settings "offline" Scenario.nothing_up Scenario.engine) = false
      /\ mode (fst (switch_mode Scenario.settings "offline" Scenario.nothing_up
                                Scenario.engine)) = "online").
Proof.
  split; [|split].
  - pose proof (switch_mode_all_or_nothing Scenario.settings "offline"
                  Scenario.local_only Scenario.engine) as H.
    cbv zeta in H. destruct H as (_ & H & _).
    split; [reflexivity|]. apply H. reflexivity.
  - pose proof (switch_mode_all_or_nothing Scenario.settings "online"
                  Scenario.local_only Scenario.engine) as H.
    cbv zeta in H. destruct H as (_ & _ & H).
    split; [reflexivity|]. apply H. reflexivity.
  - pose proof (switch_mode_all_or_nothing Scenario.settings "offline"
                  Scenario.nothing_up Scenario.engine) as H.
    cbv zeta in H. destruct H as (_ & _ & H).
    split; [reflexivity|]. apply H. reflexivity.
Defined.

(** ** Where the code departs from its documentation *)

(** C1: the terminal action with [null] for its parameters makes [run]
    raise [AttributeError] to its caller, on the first provider call, the
    task already marked completed. *)
Theorem run_raises_on_null_parameters :
  exists st,
    Scenario.run 3 true false Scenario.instruction
                 (Scenario.always (Scenario.calm Scenario.reply_answer_null))
    = Thrown AttributeError st
    /\ List.length (prompts st) = 1
    /\ state (task st) = COMPLETED
    /\ result (task st) = PNone.
Proof. eexists. repeat split; reflexivity. Qed.

(** C8: [stop] called during the provider call of the first of two
    steps marks the task, but the loop goes on: the state is reset on the
    second step, the provider is called again, and the task returned
    carries the max-steps text, not the cancellation text. *)
Theorem stop_is_overwritten :
  stop (Some (task (initial Scenario.instruction)))
  = Some (mkTask Scenario.instruction [] ERROR PNone (Some cancel_message))
  /\ error (task (think Scenario.stop_early (initial Scenario.instruction)))
     = Some cancel_message
  /\ exists st,
      Scenario.run 2 true false Scenario.instruction
                   (Scenario.first_then Scenario.stop_early
                                        (Scenario.calm Scenario.reply_prose))
      = Returned st
      /\ List.length (prompts st) = 2
      /\ state (task st) = ERROR
      /\ error (task st) = Some max_steps_message
      /\ error (task st) <> Some cancel_message.
Proof.
  split; [reflexivity|]. split; [reflexivity|].
  eexists. repeat split; try reflexivity. discriminate.
Qed.


(** * The helpers that build the system prompt *)

Lemma substring_length_le (n : nat) (s : string) :
  length (substring 0 n s) <= n.
Proof.
  revert n. induction s as [|c s IH]; intros [|n]; simpl; try lia.
  specialize (IH n). lia.
Qed.

Lemma py_split_words (s : string) :
  Forall (fun w => is_word w = true) (py_split s).
Proof.
  induction s as [|c s IH]; simpl; [constructor|].
  destruct (is_space c) eqn:Ec; [assumption|].
  assert (Hc : forall w, has_space w = false -> is_word (String c w) = true)
    by (intros w Hw; unfold is_word; simpl; now rewrite Ec, Hw).
  destruct (starts_word s).
  - destruct (py_split s) as [|w ws]; simpl.
    + constructor; [now apply Hc | constructor].
    + inversion IH as [|? ? Hw Hws]; subst. constructor; [|assumption].
      apply Hc. unfold is_word in Hw. apply andb_prop in Hw as [_ Hw].
      now destruct (has_space w).
  - constructor; [now apply Hc | assumption].
Qed.

Lemma py_split_blank (s : string) :
  py_split s = [] <-> all_space s = true.
Proof.
  induction s as [|c s IH]; simpl; [tauto|].
  destruct (is_space c); simpl; [assumption|].
  split; [|discriminate].
  destruct (starts_word s); [|discriminate].
  now destruct (py_split s).
Qed.

Lemma tidy_from_solid (b : bool) (w rest : string) :
  has_space w = false ->
  tidy_from b (w ++ rest)
  = tidy_from (if String.eqb w "" then b else false) rest.
Proof.
  revert b. induction w as [|c w IH]; intros b H; simpl in *; [reflexivity|].
  apply orb_false_iff in H as [Hc Hw]. rewrite Hc, IH by assumption.
  now destruct (String.eqb w "").
Qed.

Lemma tidy_from_prefix (b : bool) (n : nat) (s : string) :
  tidy_from b s = true -> tidy_from b (substring 0 n s) = true.
Proof.
  revert b n. induction s as [|c s IH]; intros b [|n] H; simpl in *; auto.
  destruct (is_space c).
  - apply andb_prop in H as [H1 H2]. rewrite H1. simpl. now apply IH.
  - now apply IH.
Qed.

Lemma tidy_from_no_space (b : bool) (t : string) :
  has_space t = false -> tidy_from b t = true.
Proof.
  revert b. induction t as [|c t IH]; intros b H; simpl in *; [reflexivity|].
  apply orb_false_iff in H as [Hc Ht]. rewrite Hc. now apply IH.
Qed.

Lemma tidy_from_app_solid (b : bool) (a t : string) :
  tidy_from b a = true -> has_space t = false -> tidy_from b (a ++ t) = true.
Proof.
  revert b. induction a as [|c a IH]; intros b Ha Ht; simpl in *.
  - now apply tidy_from_no_space.
  - destruct (is_space c).
    + apply andb_prop in Ha as [H1 H2]. rewrite H1. simpl. now apply IH.
    + now apply IH.
Qed.

Lemma word_parts (w : string) :
  is_word w = true -> w <> "" /\ has_space w = false.
Proof.
  unfold is_word. intros H. apply andb_prop in H as [H1 H2].
  split.
  - intros ->. discriminate.
  - now destruct (has_space w).
Qed.

Lemma tidy_join (ws : list string) :
  Forall (fun w => is_word w = true) ws -> tidy_from true (join " " ws) = true.
Proof.
  induction 1 as [|w ws Hw Hws IH]; [reflexivity|].
  apply word_parts in Hw as [Hne Hsp].
  assert (Hw' : String.eqb w "" = false) by now apply String.eqb_neq.
  destruct ws as [|w2 ws].
  - simpl. now apply tidy_from_no_space.
  - change (join " " (w :: w2 :: ws)) with (w ++ " " ++ join " " (w2 :: ws)).
    rewrite tidy_from_solid, Hw' by assumption. simpl. exact IH.
Qed.

Lemma split_word_then_space (w r : string) :
  has_space w = false -> w <> "" ->
  py_split (w ++ String " "%char r) = w :: py_split r.
Proof.
  induction w as [|c w IH]; intros Hs Hne; [contradiction|].
  simpl in Hs. apply orb_false_iff in Hs as [Hc Hw].
  simpl. rewrite Hc. destruct w as [|c' w].
  - reflexivity.
  - simpl in Hw. apply orb_false_iff in Hw as [Hc' Hw].
    change (starts_word ((String c' w) ++ String " "%char r)) with (negb (is_space c')).
    rewrite Hc'. simpl negb. cbv iota.
    rewrite IH; [reflexivity | simpl; now rewrite Hc', Hw | discriminate].
Qed.

Lemma split_word (w : string) :
  has_space w = false -> w <> "" -> py_split w = [w].
Proof.
  induction w as [|c w IH]; intros Hs Hne; [contradiction|].
  simpl in Hs. apply orb_false_iff in Hs as [Hc Hw].
  simpl. rewrite Hc. destruct w as [|c' w].
  - reflexivity.
  - simpl in Hw. apply orb_false_iff in Hw as [Hc' Hw].
    change (starts_word (String c' w)) with (negb (is_space c')).
    rewrite Hc'. simpl negb. cbv iota.
    rewrite IH; [reflexivity | simpl; now rewrite Hc', Hw | discriminate].
Qed.

(** Splitting undoes joining with single spaces. *)
Lemma split_join (ws : list string) :
  Forall (fun w => is_word w = true) ws -> py_split (join " " ws) = ws.
Proof.
  induction 1 as [|w ws Hw Hws IH]; [reflexivity|].
  apply word_parts in Hw as [Hne Hsp].
  destruct ws as [|w2 ws].
  - simpl. now apply split_word.
  - change (join " " (w :: w2 :: ws)) with (w ++ String " "%char (join " " (w2 :: ws))).
    rewrite split_word_then_space by assumption. now rewrite IH.
Qed.

Lemma join_words_empty (ws : list string) :
  Forall (fun w => is_word w = true) ws -> join " " ws = "" -> ws = [].
Proof.
  intros H E. destruct H as [|w ws Hw Hws]; [reflexivity|].
  apply word_parts in Hw as [Hne _].
  destruct w as [|c w]; [contradiction|].
  destruct ws; discriminate.
Qed.

(** X1: for a non-negative [max_length], the summary of the empty
    content is the text that stands for no content, and the summary of
    any other content is never longer than [max_length] plus the three
    dots. *)
Theorem summarize_content_bounded (content : string) (max_length : Z) :
  (0 <= max_length)%Z ->
  (content = "" /\ _summarize_content content max_length = "No content available")
  \/ (content <> ""
      /\ (Z.of_nat (length (_summarize_content content max_length))
          <= max_length + 3)%Z).
Proof.
  intros Hm. unfold _summarize_content.
  destruct (String.eqb_spec content "") as [->|Hne]; [now left|]. right.
  split; [assumption|]. cbv zeta.
  destruct (max_length <? Z.of_nat (length (join " " (py_split content))))%Z eqn:E.
  - unfold slice_to. replace (0 <=? max_length)%Z with true by (symmetry; now apply Z.leb_le).
    rewrite string_length_app. simpl length.
    pose proof (substring_length_le (Z.to_nat max_length) (join " " (py_split content))).
    lia.
  - apply Z.ltb_ge in E. lia.
Qed.

(** X2: whatever the content and the bound, the summary holds no tab,
    newline or other whitespace than the space character, never two
    spaces in a row, and no space in front. *)
Theorem summarize_content_tidy (content : string) (max_length : Z) :
  tidy (_summarize_content content max_length) = true.
Proof.
  unfold _summarize_content, tidy.
  destruct (String.eqb content ""); [reflexivity|]. cbv zeta.
  pose proof (tidy_join (py_split content) (py_split_words content)) as Ht.
  destruct (max_length <? _)%Z; [|assumption].
  apply tidy_from_app_solid; [|reflexivity].
  unfold slice_to. destruct (0 <=? max_length)%Z; now apply tidy_from_prefix.
Qed.

(** X3: with a non-negative bound the summary is the empty text exactly
    when the content is not empty and is all whitespace: such a content
    does not get the text that stands for no content. *)
Theorem summarize_content_blank (content : string) (max_length : Z) :
  (0 <= max_length)%Z ->
  (_summarize_content content max_length = ""
   <-> content <> "" /\ all_space content = true).
Proof.
  intros Hm. unfold _summarize_content.
  destruct (String.eqb content "") eqn:Ee.
  - apply String.eqb_eq in Ee. subst.
    split; [discriminate | intros [H _]; now contradiction H].
  - apply String.eqb_neq in Ee. cbv zeta.
    pose proof (py_split_words content) as Hw.
    destruct (max_length <? Z.of_nat (length (join " " (py_split content))))%Z eqn:E.
    + split.
      * intros H. apply (f_equal length) in H. rewrite string_length_app in H.
        simpl in H. lia.
      * intros [_ H]. apply py_split_blank in H. rewrite H in E. simpl in E.
        apply Z.ltb_lt in E. lia.
    + split.
      * intros H. split; [assumption|]. apply py_split_blank.
        now apply join_words_empty.
      * intros [_ H]. apply py_split_blank in H. now rewrite H.
Qed.

(** X4: a content that is already words with single spaces between
    them, and not longer than the bound, is its own summary. *)
Theorem summarize_content_fixed (ws : list string) (max_length : Z) :
  ws <> [] ->
  Forall (fun w => is_word w = true) ws ->
  (Z.of_nat (length (join " " ws)) <= max_length)%Z ->
  py_split (join " " ws) = ws
  /\ _summarize_content (join " " ws) max_length = join " " ws.
Proof.
  intros Hne Hw Hl. pose proof (split_join ws Hw) as Hs. split; [assumption|].
  unfold _summarize_content. rewrite Hs.
  destruct (String.eqb (join " " ws) "") eqn:Ee.
  - apply String.eqb_eq in Ee. now apply join_words_empty in Ee.
  - cbv zeta. replace (max_length <? _)%Z with false; [reflexivity|].
    symmetry. now apply Z.ltb_ge.
Qed.

(** * More on the loop *)

Lemma parse_step_fresh (json_loads : string -> option pyval) (r : string) (n : nat)
      (step : AgentStep) :
  _parse_response json_loads r n = Ok step ->
  step_number step = n /\ observation step = None.
Proof.
  unfold _parse_response. cbv zeta.
  destruct (_ && _); [|intros E; inversion E; auto].
  destruct (json_loads _) as [[| | | | |d]|]; intros E; inversion E; auto.
Qed.

Lemma prefix_refl (a : string) : prefix a a = true.
Proof.
  induction a as [|c a IH]; simpl; [reflexivity|].
  destruct (ascii_dec c c); [assumption | congruence].
Qed.

Lemma prefix_nil (b : string) : prefix "" b = true.
Proof. now destruct b. Qed.

Lemma prefix_app (a b : string) : prefix a (a ++ b) = true.
Proof.
  induction a as [|c a IH]; simpl; [apply prefix_nil|].
  destruct (ascii_dec c c); [assumption | congruence].
Qed.

Lemma prefix_trans (a b c : string) :
  prefix a b = true -> prefix b c = true -> prefix a c = true.
Proof.
  revert b c. induction a as [|x a IH]; intros [|y b] [|z c]; simpl; auto;
    try discriminate.
  destruct (ascii_dec x y), (ascii_dec y z); try discriminate.
  subst. destruct (ascii_dec z z); [apply IH | congruence].
Qed.

Lemma prefix_under (p a b : string) :
  prefix a b = true -> prefix (p ++ a) (p ++ b) = true.
Proof.
  intros H. induction p as [|c p IH]; simpl; [assumption|].
  destruct (ascii_dec c c); [assumption | congruence].
Qed.

Lemma join_snoc_prefix (sep : string) (l extra : list string) :
  prefix (join sep l) (join sep (l ++ extra)) = true.
Proof.
  induction l as [|x l IH]; [apply prefix_nil|].
  destruct l as [|y l].
  - destruct extra; simpl; [apply prefix_refl | apply prefix_app].
  - change (join sep (x :: y :: l)) with (x ++ sep ++ join sep (y :: l)).
    change (join sep ((x :: y :: l) ++ extra))
      with (x ++ sep ++ join sep ((y :: l) ++ extra)).
    now do 2 apply prefix_under.
Qed.

Lemma growing_snoc (l : list string) (a b : string) :
  growing (l ++ [a]) = true -> prefix a b = true -> growing (l ++ [a; b]) = true.
Proof.
  induction l as [|x l IH]; intros Hg Hp; simpl in *.
  - now rewrite Hp.
  - destruct l as [|y l]; simpl in *.
    + apply andb_prop in Hg as [H1 _]. now rewrite H1, Hp.
    + apply andb_prop in Hg as [H1 H2]. rewrite H1. simpl. now apply IH.
Qed.

Lemma growing_init (l : list string) (a : string) :
  growing (l ++ [a]) = true -> growing l = true.
Proof.
  induction l as [|x l IH]; intros Hg; [reflexivity|].
  destruct l as [|y l]; [reflexivity|].
  simpl in *. apply andb_prop in Hg as [H1 H2]. rewrite H1. simpl. now apply IH.
Qed.

Section RunFacts.

Variable json_loads : string -> option pyval.
Variable py_str : pyval -> string.
Variable json_dumps : pyval -> string.
Variable max_steps : nat.
Variable has_tool_executor : bool.
Variable has_on_step : bool.
Variable context : list (string * pyval).
Variable events : nat -> StepEvents.

Local Abbreviation iteration := (iteration json_loads py_str json_dumps has_tool_executor has_on_step).
Local Abbreviation loop := (loop json_loads py_str json_dumps has_tool_executor has_on_step).
Local Abbreviation run desc events :=
  (run json_loads py_str json_dumps max_steps has_tool_executor has_on_step desc context events).
Local Abbreviation act := (act py_str json_dumps has_tool_executor).
Local Abbreviation record_step := (record_step has_on_step).
Local Abbreviation on_step_error := (on_step_error has_on_step).
(** The action phase, in full. *)
Lemma act_exact (n : nat) (ev : StepEvents) (step : AgentStep) (st : RunState)
      (l : list AgentStep) :
  steps (task st) = (l ++ [step])%list ->
  steps (task (act n ev step st)) = (l ++ [acted py_str has_tool_executor ev step])%list
  /\ messages (act n ev step st)
     = (messages st ++ act_messages py_str json_dumps has_tool_executor n ev step)%list
  /\ prompts (act n ev step st) = prompts st
  /\ result (task (act n ev step st)) = result (task st).
Proof.
  intros E. destruct st as [[d ss s r e] ms ps]. simpl in E. subst ss.
  unfold Agent.act, acted, act_messages, executed, tool_text, stopped.
  destruct (truthy (action step) && has_tool_executor), (tool ev),
    (stop_during_tool ev), (is_None (action step)); simpl;
    rewrite ?removelast_last, ?rev_unit, ?app_nil_r, <- ?app_assoc; simpl;
    repeat split; reflexivity.
Qed.

(** One iteration, by the way it ends. *)
Lemma iteration_trace (n : nat) (ev : StepEvents) (st : RunState) :
  match iteration n ev st with
  | Continue st' =>
      exists step,
        _parse_response json_loads (reply ev) n = Ok step
        /\ terminal step = false
        /\ steps (task st')
           = (steps (task st) ++ [acted py_str has_tool_executor ev step])%list
        /\ messages st'
           = (messages st ++ act_messages py_str json_dumps has_tool_executor n ev step)%list
        /\ prompts st' = (prompts st ++ [join (nl ++ nl) (messages st)])%list
        /\ result (task st') = result (task st)
  | Break st' =>
      exists step d,
        _parse_response json_loads (reply ev) n = Ok step
        /\ terminal step = true
        /\ action_input step = PDict d
        /\ steps (task st') = (steps (task st) ++ [step])%list
        /\ messages st' = messages st
        /\ prompts st' = (prompts st ++ [join (nl ++ nl) (messages st)])%list
        /\ result (task st') = dict_get d "message" (PStr "Task completed")
        /\ state (task st') = COMPLETED
  | Raised e st' =>
      messages st' = messages st
      /\ prompts st' = (prompts st ++ [join (nl ++ nl) (messages st)])%list
      /\ (steps (task st') = steps (task st)
          \/ exists step,
               _parse_response json_loads (reply ev) n = Ok step
               /\ steps (task st') = (steps (task st) ++ [step])%list)
  end.
Proof.
  destruct (think_facts ev st) as (Tp & Tm & Ts & Tr & _).
  destruct (_parse_response json_loads (reply ev) n) as [step|e] eqn:Hp.
  - destruct (record_step_facts has_on_step ev step (think ev st))
      as (Rp & Rm & Rs & Rr & _).
    pose proof (recorded_steps has_on_step ev step st) as Hs.
    destruct (on_step_error ev) as [e|] eqn:Hc.
    + rewrite (iteration_callback json_loads py_str json_dumps has_tool_executor
                 has_on_step n ev st step e Hp Hc).
      repeat split; try congruence. right. exists step. auto.
    + destruct (terminal step) eqn:Ht.
      * rewrite (iteration_answer json_loads py_str json_dumps has_tool_executor
                   has_on_step n ev st step Hp Hc Ht).
        remember (record_step ev step (think ev st)) as st1 eqn:E1.
        unfold finish. destruct (action_input step) as [| | | | |d] eqn:Hd;
          unfold on_task;
          cbn [messages prompts task steps result state set_state set_result];
          try (split; [congruence|]; split; [congruence|];
               right; exists step; split; [reflexivity | exact Hs]).
        exists step, d. repeat split; try congruence.
      * rewrite (iteration_other json_loads py_str json_dumps has_tool_executor
                   has_on_step n ev st step Hp Hc Ht).
        destruct (act_exact n ev step (record_step ev step (think ev st))
                            (steps (task st)) Hs) as (As & Am & Ap & Ar).
        exists step. repeat split; try congruence.
  - unfold Agent.iteration. cbv zeta. rewrite Hp. repeat split; try congruence.
    left. assumption.
Qed.

(** The loop, by the way it is left: the steps it appended and the
    provider calls it made. *)
Lemma loop_trace (nums : list nat) (st : RunState) :
  match loop events nums st with
  | Continue st' =>
      exists ss,
        Forall2 (step_taken json_loads py_str has_tool_executor events) nums ss
        /\ steps (task st') = (steps (task st) ++ ss)%list
        /\ result (task st') = result (task st)
        /\ List.length (prompts st') = List.length (prompts st) + List.length nums
  | Break st' =>
      exists pre n post ss s d,
        nums = (pre ++ n :: post)%list
        /\ Forall2 (step_taken json_loads py_str has_tool_executor events) pre ss
        /\ step_answered json_loads events n s
        /\ action_input s = PDict d
        /\ steps (task st') = (steps (task st) ++ ss ++ [s])%list
        /\ result (task st') = dict_get d "message" (PStr "Task completed")
        /\ state (task st') = COMPLETED
        /\ List.length (prompts st') = List.length (prompts st) + S (List.length pre)
  | Raised e st' =>
      exists pre n post ss,
        nums = (pre ++ n :: post)%list
        /\ Forall2 (step_taken json_loads py_str has_tool_executor events) pre ss
        /\ (steps (task st') = (steps (task st) ++ ss)%list
            \/ exists s,
                 _parse_response json_loads (reply (events n)) n = Ok s
                 /\ steps (task st') = (steps (task st) ++ ss ++ [s])%list)
        /\ List.length (prompts st') = List.length (prompts st) + S (List.length pre)
  end.
Proof.
  revert st. induction nums as [|n nums IH]; intros st; simpl.
  - exists []. rewrite app_nil_r. repeat split; [constructor | lia].
  - pose proof (iteration_trace n (events n) st) as Hi.
    destruct (iteration n (events n) st) as [st1|st1|e st1].
    + destruct Hi as (step & Hp & Ht & Hs & _ & Hpr & Hr).
      apply (f_equal (@List.length string)) in Hpr.
      rewrite List.length_app in Hpr. simpl in Hpr.
      assert (Hk : step_taken json_loads py_str has_tool_executor events n
                              (acted py_str has_tool_executor (events n) step))
        by (exists step; auto).
      specialize (IH st1).
      destruct (loop events nums st1) as [st2|st2|e st2].
      * destruct IH as (ss & Hf & Hs2 & Hr2 & Hp2).
        exists (acted py_str has_tool_executor (events n) step :: ss).
        split; [now constructor|]. split; [|split; [congruence | lia]].
        rewrite Hs2, Hs, <- app_assoc. reflexivity.
      * destruct IH as (pre & m & post & ss & s & d & E & Hf & Ha & Hd & Hs2 & Hr2 & Hc & Hp2).
        exists (n :: pre), m, post,
               (acted py_str has_tool_executor (events n) step :: ss), s, d.
        split; [now rewrite E|]. split; [now constructor|].
        split; [assumption|]. split; [assumption|].
        split; [rewrite Hs2, Hs, <- app_assoc; reflexivity|].
        split; [assumption|]. split; [assumption|]. simpl. lia.
      * destruct IH as (pre & m & post & ss & E & Hf & Hs2 & Hp2).
        exists (n :: pre), m, post,
               (acted py_str has_tool_executor (events n) step :: ss).
        split; [now rewrite E|]. split; [now constructor|].
        split; [|simpl; lia].
        destruct Hs2 as [Hs2|(s & Hq & Hs2)]; [left|right; exists s; split; [assumption|]];
          rewrite Hs2, Hs, <- app_assoc; reflexivity.
    + destruct Hi as (step & d & Hp & Ht & Hd & Hs & _ & Hpr & Hr & Hc).
      apply (f_equal (@List.length string)) in Hpr.
      rewrite List.length_app in Hpr. simpl in Hpr.
      exists [], n, nums, [], step, d. simpl.
      split; [reflexivity|]. split; [constructor|]. split; [now split|].
      split; [assumption|]. split; [assumption|]. split; [assumption|].
      split; [assumption | lia].
    + destruct Hi as (_ & Hpr & Hs).
      apply (f_equal (@List.length string)) in Hpr.
      rewrite List.length_app in Hpr. simpl in Hpr.
      exists [], n, nums, []. simpl.
      split; [reflexivity|]. split; [constructor|]. split; [|lia].
      rewrite app_nil_r. destruct Hs as [Hs|(s & Hq & Hs)]; [now left|right; eauto].
Qed.

Lemma step_taken_number (n : nat) (s : AgentStep) :
  step_taken json_loads py_str has_tool_executor events n s ->
  step_number s = n
  /\ terminal s = false
  /\ observed s = executed has_tool_executor s.
Proof.
  intros (step & Hp & Ht & ->). apply parse_step_fresh in Hp as [Hn Ho].
  unfold acted. destruct (executed has_tool_executor step) eqn:Ex.
  - change (terminal (set_observation (tool_text py_str (events n) step) step))
      with (terminal step).
    change (executed has_tool_executor
                     (set_observation (tool_text py_str (events n) step) step))
      with (executed has_tool_executor step).
    rewrite Ex. repeat split; assumption.
  - unfold observed. rewrite Ho, Ex. repeat split; assumption.
Qed.

Lemma steps_taken_numbers (nums : list nat) (ss : list AgentStep) :
  Forall2 (step_taken json_loads py_str has_tool_executor events) nums ss ->
  map step_number ss = nums
  /\ Forall (fun s => terminal s = false
                      /\ observed s = executed has_tool_executor s) ss.
Proof.
  induction 1 as [|n s nums ss Hs _ [IH1 IH2]]; [split; [reflexivity | constructor]|].
  apply step_taken_number in Hs as (Hn & Ht & Ho). simpl.
  split; [now rewrite Hn, IH1 | constructor; auto].
Qed.

Lemma seq_split (a len : nat) (pre rest : list nat) :
  seq a len = (pre ++ rest)%list ->
  pre = seq a (List.length pre) /\ List.length pre <= len.
Proof.
  revert a len. induction pre as [|x pre IH]; intros a len E; simpl in *.
  - split; [reflexivity | lia].
  - destruct len as [|len]; [discriminate|]. simpl in E. inversion E as [[Hx E']].
    destruct (IH _ _ E') as [H1 H2]. split; [now rewrite <- H1 | lia].
Qed.

Lemma final_check_keeps (t : AgentTask) :
  steps (final_check t) = steps t /\ result (final_check t) = result t.
Proof. unfold final_check. destruct (AgentState_eqb _ _); auto. Qed.

Lemma numbered_prefix (n : nat) (l rest : list nat) (ss : list AgentStep) :
  seq 1 n = (l ++ rest)%list ->
  map step_number ss = l ->
  map step_number ss = seq 1 (List.length ss) /\ List.length ss = List.length l.
Proof.
  intros E <-. apply seq_split in E as [E _].
  rewrite length_map in E. now rewrite length_map.
Qed.

(** X5: however [run] ends, the steps of its task are numbered 1, 2, 3
    and so on without a gap, there are at most [max_steps] of them, and
    the provider was called once per step, or once more when the run
    raised before the step was appended; a run that returns has made
    exactly one call per step. *)
Theorem run_steps_numbered (desc : string) :
  let o := run desc events in
  map step_number (steps (task_of o)) = seq 1 (List.length (steps (task_of o)))
  /\ List.length (steps (task_of o)) <= provider_calls o
  /\ provider_calls o <= S (List.length (steps (task_of o)))
  /\ provider_calls o <= max_steps
  /\ (forall st, o = Returned st ->
                 List.length (prompts st) = List.length (steps (task st))).
Proof.
  cbv zeta. unfold Agent.run.
  destruct (build_system_prompt py_str context) as [prompt|e0];
    [|simpl; repeat split; try lia; discriminate].
  pose proof (loop_trace (seq 1 max_steps) (initial desc)) as Ht.
  destruct (loop events (seq 1 max_steps) (initial desc)) as [st0|st0|e st0];
    unfold task_of, provider_calls.
  - destruct Ht as (ss & Hf & Hs & _ & Hp). simpl in Hs, Hp.
    apply steps_taken_numbers in Hf as [Hm _].
    destruct (numbered_prefix max_steps (seq 1 max_steps) [] ss) as [Hn Hl];
      [now rewrite app_nil_r | assumption |].
    rewrite length_seq in Hl, Hp.
    destruct (final_check_keeps (task st0)) as [Hk _].
    cbn [task on_task prompts]. rewrite Hk, Hs, Hp.
    repeat split; try lia; try assumption.
    intros st E. inversion E. cbn [task on_task prompts]. rewrite Hk, Hs. lia.
  - destruct Ht as (pre & n & post & ss & s & d & E & Hf & [Ha _] & _ & Hs & _ & _ & Hp).
    simpl in Hs, Hp. apply steps_taken_numbers in Hf as [Hm _].
    apply parse_step_fresh in Ha as [Hn _].
    assert (E' : seq 1 max_steps = ((pre ++ [n]) ++ post)%list)
      by (rewrite E, <- app_assoc; reflexivity).
    destruct (numbered_prefix max_steps (pre ++ [n]) post (ss ++ [s])) as [Hnum Hl];
      [assumption | rewrite map_app, Hm; simpl; now rewrite Hn |].
    assert (Hl' : List.length (ss ++ [s]) = S (List.length pre))
      by (rewrite Hl, List.length_app; simpl; lia).
    apply (f_equal (@List.length nat)) in E.
    rewrite length_seq, List.length_app in E. simpl in E.
    destruct (final_check_keeps (task st0)) as [Hk _].
    cbn [task on_task prompts]. rewrite Hk, Hs, Hp, Hl'.
    split; [rewrite <- Hl'; exact Hnum|]. repeat split; try lia.
    intros st Es. inversion Es. cbn [task on_task prompts]. rewrite Hk, Hs, Hl'. lia.
  - destruct Ht as (pre & n & post & ss & E & Hf & Hs & Hp).
    simpl in Hs, Hp. apply steps_taken_numbers in Hf as [Hm _].
    assert (Hlen : List.length pre < max_steps).
    { apply (f_equal (@List.length nat)) in E.
      rewrite length_seq, List.length_app in E. simpl in E. lia. }
    destruct Hs as [Hs|(s & Ha & Hs)].
    + destruct (numbered_prefix max_steps pre (n :: post) ss) as [Hnum Hl];
        [assumption | assumption |].
      rewrite Hs, Hp, Hl. split; [rewrite <- Hl; exact Hnum|].
      repeat split; try lia. intros st Es. discriminate.
    + apply parse_step_fresh in Ha as [Hn _].
      assert (E' : seq 1 max_steps = ((pre ++ [n]) ++ post)%list)
        by (rewrite E, <- app_assoc; reflexivity).
      destruct (numbered_prefix max_steps (pre ++ [n]) post (ss ++ [s])) as [Hnum Hl];
        [assumption | rewrite map_app, Hm; simpl; now rewrite Hn |].
      assert (Hl' : List.length (ss ++ [s]) = S (List.length pre))
        by (rewrite Hl, List.length_app; simpl; lia).
      rewrite Hs, Hp, Hl'. split; [rewrite <- Hl'; exact Hnum|].
      repeat split; try lia. intros st Es. discriminate.
Qed.

(** X6: a task that [run] returns is completed exactly when its last
    step chose the terminal action; no step before the last did, and the
    result was read from the parameters of that last step.  Otherwise
    the task is in error, none of its [max_steps] steps chose the
    terminal action, and it has no result. *)
Theorem run_outcome_by_steps (desc : string) (st : RunState) :
  run desc events = Returned st ->
  (state (task st) = COMPLETED
   /\ exists ss s d,
       steps (task st) = (ss ++ [s])%list
       /\ Forall (fun x => terminal x = false) ss
       /\ terminal s = true
       /\ action_input s = PDict d
       /\ result (task st) = dict_get d "message" (PStr "Task completed"))
  \/ (state (task st) = ERROR
      /\ Forall (fun x => terminal x = false) (steps (task st))
      /\ List.length (steps (task st)) = max_steps
      /\ result (task st) = PNone).
Proof.
  unfold Agent.run.
  destruct (build_system_prompt py_str context) as [prompt|e0]; [|discriminate].
  pose proof (loop_trace (seq 1 max_steps) (initial desc)) as Ht.
  pose proof (loop_shape json_loads py_str json_dumps has_tool_executor has_on_step
                events (seq 1 max_steps) (initial desc)) as Hsh.
  destruct (loop events (seq 1 max_steps) (initial desc)) as [st0|st0|e st0];
    intros E; inversion E; subst st; clear E.
  - right. destruct Ht as (ss & Hf & Hs & Hr & _). simpl in Hs, Hr.
    destruct Hsh as (_ & _ & Hc & _).
    assert (Hn : state (task st0) <> COMPLETED) by (apply Hc; simpl; congruence).
    destruct (final_check_state (task st0)) as [[Ec _]|[_ Ef]]; [contradiction|].
    cbn [task on_task]. rewrite Ef. cbn [state steps result set_error set_state].
    pose proof (steps_taken_numbers _ _ Hf) as [Hm Hall].
    rewrite Hs, Hr. repeat split.
    + eapply Forall_impl; [|exact Hall]. now intros x [Hx _].
    + rewrite <- (length_map step_number), Hm. apply length_seq.
  - left. destruct Ht as (pre & n & post & ss & s & d & _ & Hf & [_ Hts] & Hd & Hs & Hr & Hc & _).
    simpl in Hs.
    destruct (final_check_state (task st0)) as [[_ Ef]|[Hn _]]; [|contradiction].
    cbn [task on_task]. rewrite Ef. split; [assumption|].
    exists ss, s, d. pose proof (steps_taken_numbers _ _ Hf) as [_ Hall].
    repeat split; try assumption.
    eapply Forall_impl; [|exact Hall]. now intros x [Hx _].
Qed.

(** X7: in a task that [run] returns, a step has an observation exactly
    when its action was handed to the tool executor, that is when the
    action is truthy, an executor is set and the action is not the
    terminal one; so without an executor no step has an observation. *)
Theorem run_observations (desc : string) (st : RunState) :
  run desc events = Returned st ->
  Forall (fun s => observed s = executed has_tool_executor s && negb (terminal s))
         (steps (task st))
  /\ (has_tool_executor = false ->
      Forall (fun s => observation s = None) (steps (task st))).
Proof.
  intros Hr.
  assert (H : Forall (fun s => observed s
                               = executed has_tool_executor s && negb (terminal s))
                     (steps (task st))).
  { revert Hr. unfold Agent.run.
    destruct (build_system_prompt py_str context) as [prompt|e0]; [|discriminate].
    pose proof (loop_trace (seq 1 max_steps) (initial desc)) as Ht.
    destruct (loop events (seq 1 max_steps) (initial desc)) as [st0|st0|e st0];
      intros E; inversion E; subst st; clear E;
      destruct (final_check_keeps (task st0)) as [Hk _]; cbn [task on_task];
      rewrite Hk.
    - destruct Ht as (ss & Hf & Hs & _). simpl in Hs. rewrite Hs.
      apply steps_taken_numbers in Hf as [_ Hall].
      eapply Forall_impl; [|exact Hall]. intros x [Hx Ho]. rewrite Ho, Hx.
      now rewrite andb_true_r.
    - destruct Ht as (pre & n & post & ss & s & d & _ & Hf & [Ha Hts] & _ & Hs & _).
      simpl in Hs. rewrite Hs. apply Forall_app. split.
      + apply steps_taken_numbers in Hf as [_ Hall].
        eapply Forall_impl; [|exact Hall]. intros x [Hx Ho]. rewrite Ho, Hx.
        now rewrite andb_true_r.
      + constructor; [|constructor]. apply parse_step_fresh in Ha as [_ Ho].
        unfold observed. rewrite Ho, Hts. now rewrite andb_false_r. }
  split; [assumption|]. intros Hx.
  eapply Forall_impl; [|exact H]. intros s Hs.
  unfold executed in Hs. rewrite Hx, andb_false_r in Hs. simpl in Hs.
  unfold observed in Hs. now destruct (observation s).
Qed.

(** The prompts made so far grow, and the last of them is a prefix of
    the transcript as it stands. *)
Lemma loop_growing (nums : list nat) (st : RunState) :
  growing (prompts st ++ [join (nl ++ nl) (messages st)]) = true ->
  match loop events nums st with
  | Continue st' | Break st' | Raised _ st' =>
      growing (prompts st' ++ [join (nl ++ nl) (messages st')]) = true
  end.
Proof.
  revert st. induction nums as [|n nums IH]; intros st Hg; simpl; [assumption|].
  pose proof (iteration_trace n (events n) st) as Hi.
  destruct (iteration n (events n) st) as [st1|st1|e st1].
  - destruct Hi as (step & _ & _ & _ & Hm & Hp & _).
    apply IH. rewrite Hp, Hm, <- app_assoc. simpl.
    apply growing_snoc; [assumption | apply join_snoc_prefix].
  - destruct Hi as (step & d & _ & _ & _ & _ & Hm & Hp & _).
    rewrite Hp, Hm, <- app_assoc. simpl.
    apply growing_snoc; [assumption | apply prefix_refl].
  - destruct Hi as (Hm & Hp & _).
    rewrite Hp, Hm, <- app_assoc. simpl.
    apply growing_snoc; [assumption | apply prefix_refl].
Qed.

(** X8: the transcript is append-only: however [run] ends, each prompt
    it handed to the provider is a prefix of the next one. *)
Theorem run_prompts_grow (desc : string) :
  match run desc events with
  | Returned st | Thrown _ st => growing (prompts st) = true
  end.
Proof.
  unfold Agent.run.
  destruct (build_system_prompt py_str context) as [prompt|e0]; [|reflexivity].
  pose proof (loop_growing (seq 1 max_steps) (initial desc) eq_refl) as H.
  destruct (loop events (seq 1 max_steps) (initial desc)) as [st|st|e st];
    cbn [prompts on_task]; now apply growing_init in H.
Qed.


(** X10: an action that is not [None] and is not handed to the tool
    executor (it is falsy, or no executor is set) leaves no trace in the
    transcript, so the next prompt is this prompt over again. *)
Theorem unexecuted_action_repeats_prompt (n : nat) (ev next : StepEvents)
        (st : RunState) (step : AgentStep) :
  _parse_response json_loads (reply ev) n = Ok step ->
  on_step_error ev = None ->
  terminal step = false ->
  is_None (action step) = false ->
  executed has_tool_executor step = false ->
  exists st',
    iteration n ev st = Continue st'
    /\ steps (task st') = (steps (task st) ++ [step])%list
    /\ messages st' = messages st
    /\ prompts (think next st')
       = (prompts st ++ [join (nl ++ nl) (messages st); join (nl ++ nl) (messages st)])%list.
Proof.
  intros Hp Hc Ht Hn Hx.
  exists (act n ev step (record_step ev step (think ev st))).
  split; [now apply iteration_other|].
  destruct (act_exact n ev step (record_step ev step (think ev st)) (steps (task st))
                      (recorded_steps has_on_step ev step st)) as (As & Am & Ap & _).
  destruct (record_step_facts has_on_step ev step (think ev st)) as (Rp & Rm & _).
  destruct (think_facts ev st) as (Tp & Tm & _).
  assert (Hm : messages (act n ev step (record_step ev step (think ev st))) = messages st).
  { rewrite Am. unfold act_messages. rewrite Hx, Hn. simpl.
    rewrite app_nil_r. congruence. }
  split; [|split; [exact Hm|]].
  - rewrite As. unfold acted. now rewrite Hx.
  - destruct (think_facts next (act n ev step (record_step ev step (think ev st))))
      as (Np & _).
    rewrite Np, Hm, Ap, Rp, Tp, <- app_assoc. reflexivity.
Qed.

(** Without a tool executor the transcript is the first message and one
    corrective message for each step without an action. *)
Lemma loop_transcript_bare (nums : list nat) (st : RunState) (m0 : string) :
  has_tool_executor = false ->
  messages st
  = m0 :: repeat corrective_message
            (List.length (filter (fun s => is_None (action s)) (steps (task st)))) ->
  match loop events nums st with
  | Continue st' | Break st' =>
      messages st'
      = m0 :: repeat corrective_message
                (List.length (filter (fun s => is_None (action s)) (steps (task st'))))
  | Raised _ _ => True
  end.
Proof.
  intros Hx. revert st. induction nums as [|n nums IH]; intros st Hm; simpl; [assumption|].
  pose proof (iteration_trace n (events n) st) as Hi.
  destruct (iteration n (events n) st) as [st1|st1|e st1]; [| |exact I].
  - destruct Hi as (step & _ & _ & Hs & Hmsg & _).
    apply IH. rewrite Hmsg, Hs, Hm, filter_app, List.length_app.
    unfold act_messages, acted, executed. rewrite Hx, andb_false_r. simpl.
    destruct (is_None (action step)); simpl.
    + rewrite repeat_app. reflexivity.
    + now rewrite !app_nil_r, Nat.add_0_r.
  - destruct Hi as (step & d & _ & Ht & _ & Hs & Hmsg & _).
    rewrite Hmsg, Hs, Hm, filter_app, List.length_app. simpl.
    unfold terminal, eq_str in Ht.
    destruct (action step); try discriminate. simpl. now rewrite Nat.add_0_r.
Qed.

(** X11: without a tool executor, the transcript of a task that [run]
    returns is the first message followed by one corrective message for
    each step without an action, whatever actions the other steps chose:
    no step leaves a record of its thought, action or observation. *)
Theorem run_transcript_without_executor (desc : string) (st : RunState) :
  has_tool_executor = false ->
  run desc events = Returned st ->
  messages st
  = first_message desc
      :: repeat corrective_message
           (List.length (filter (fun s => is_None (action s)) (steps (task st)))).
Proof.
  intros Hx. unfold Agent.run.
  destruct (build_system_prompt py_str context) as [prompt|e0]; [|discriminate].
  pose proof (loop_transcript_bare (seq 1 max_steps) (initial desc)
                                   (first_message desc) Hx eq_refl) as H.
  destruct (loop events (seq 1 max_steps) (initial desc)) as [st0|st0|e st0];
    intros E; inversion E; subst st;
    destruct (final_check_keeps (task st0)) as [Hk _];
    cbn [messages on_task task]; now rewrite Hk.
Qed.

End RunFacts.

(** * The engines *)

(** X12: [OllamaEngine.initialize] either succeeds, and then the engine
    is available with its own model or the fallback model, or fails, and
    then the engine is exactly as before; in particular it never clears
    an availability flag set by an earlier success. *)
Theorem ollama_initialize_outcome (settings : Settings) (p : Probe) (o : OllamaEngine) :
  let r := ollama_initialize settings p o in
  (snd r = true ->
   ollama_available (fst r) = true
   /\ (ollama_model (fst r) = ollama_model o
       \/ ollama_model (fst r) = fallback_model settings))
  /\ (snd r = false -> fst r = o)
  /\ (ollama_available o = true -> ollama_available (fst r) = true).
Proof.
  unfold ollama_initialize. destruct (tags p) as [|status names]; simpl.
  - repeat split; auto; discriminate.
  - destruct (status =? 200)%Z; simpl; [|repeat split; auto; discriminate].
    destruct (str_in (ollama_model o) names
              || str_in (before_colon (ollama_model o)) (map before_colon names)); simpl.
    + repeat split; auto; discriminate.
    + destruct (str_in (fallback_model settings) names); simpl;
        repeat split; auto; discriminate.
Qed.

(** X13: probing again while the server answers the same changes
    nothing more: [initialize] after [initialize] gives the same engine
    and the same answer. *)
Theorem ollama_initialize_idempotent (settings : Settings) (p : Probe) (o : OllamaEngine) :
  ollama_initialize settings p (fst (ollama_initialize settings p o))
  = ollama_initialize settings p o.
Proof.
  unfold ollama_initialize. destruct (tags p) as [|status names]; simpl; [reflexivity|].
  destruct (status =? 200)%Z eqn:Es; simpl; rewrite ?Es; [|reflexivity].
  destruct (str_in (ollama_model o) names
            || str_in (before_colon (ollama_model o)) (map before_colon names)) eqn:E1;
    simpl; rewrite ?E1; [reflexivity|].
  destruct (str_in (fallback_model settings) names) eqn:E2; simpl;
    rewrite ?E1, ?E2; reflexivity.
Qed.

Lemma ollama_initialize_failure (settings : Settings) (p : Probe) (o : OllamaEngine) :
  snd (ollama_initialize settings p o) = false ->
  fst (ollama_initialize settings p o) = o.
Proof.
  unfold ollama_initialize. destruct (tags p) as [|status names]; simpl; [reflexivity|].
  destruct (status =? 200)%Z; simpl; [|reflexivity].
  destruct (_ || _); simpl; [discriminate|].
  destruct (str_in _ _); simpl; [discriminate | reflexivity].
Qed.

Lemma gemini_initialize_name (settings : Settings) (p : Probe) (g : GeminiEngine) :
  model_name (fst (gemini_initialize settings p g)) = model_name g.
Proof.
  unfold gemini_initialize. simpl.
  destruct (no_key (gemini_api_key settings)); simpl; [reflexivity|].
  destruct (genai_accepts p); reflexivity.
Qed.

Lemma switch_mode_keeps_router_ok (settings : Settings) (target : string) (p : Probe)
      (e : LLMEngine) :
  router_ok e -> router_ok (fst (switch_mode settings target p e)).
Proof.
  intros H. unfold switch_mode.
  destruct (String.eqb target "online").
  - pose proof (gemini_initialize_name settings p (gemini e)) as Hn.
    destruct (gemini_initialize settings p (gemini e)) as [g ok]. simpl in Hn.
    destruct ok; simpl.
    + left. repeat split.
    + destruct H as [(H1 & H2 & H3)|(H1 & H2 & H3)]; [left|right]; simpl;
        repeat split; try assumption. now rewrite Hn.
  - destruct (String.eqb target "offline"); [|assumption].
    pose proof (ollama_initialize_failure settings p (ollama e)) as Hf.
    destruct (ollama_initialize settings p (ollama e)) as [o ok]. simpl in Hf.
    destruct ok; simpl.
    + right. repeat split.
    + rewrite (Hf eq_refl).
      destruct H as [(H1 & H2 & H3)|(H1 & H2 & H3)]; [left|right]; simpl;
        repeat split; assumption.
Qed.

Lemma switch_mode_keeps_flag (settings : Settings) (target : string) (p : Probe)
      (e : LLMEngine) :
  model_available (fst (switch_mode settings target p e)) = model_available e.
Proof.
  unfold switch_mode.
  destruct (String.eqb target "online").
  - destruct (gemini_initialize settings p (gemini e)) as [g [|]]; reflexivity.
  - destruct (String.eqb target "offline"); [|reflexivity].
    destruct (ollama_initialize settings p (ollama e)) as [o [|]]; reflexivity.
Qed.

Lemma llm_initialize_router_ok (settings : Settings) (p : Probe) (e : LLMEngine) :
  ai_mode settings = "online" \/ ai_mode settings = "offline" ->
  router_ok (fst (llm_initialize settings p e)).
Proof.
  intros H. unfold llm_initialize.
  destruct (String.eqb (ai_mode settings) "online") eqn:E.
  - apply String.eqb_eq in E.
    destruct (gemini_initialize settings p (gemini e)) as [g [|]].
    + left. simpl. auto.
    + destruct (ollama_initialize settings p (ollama e)) as [o ok]. right. simpl. auto.
  - apply String.eqb_neq in E. destruct H as [H|H]; [contradiction|].
    destruct (ollama_initialize settings p (ollama e)) as [o ok]. right. simpl. auto.
Qed.

(** X14: [LLMEngine.initialize] returns the availability flag it
    stores; Gemini is the active engine afterwards exactly when the
    configured mode is [online] and Gemini initialized, otherwise Ollama
    is active and the answer is that of its probe; and under a
    configured mode of [online] or [offline] the mode names the active
    engine and [model] is that engine's identifier. *)
Theorem llm_initialize_outcome (settings : Settings) (p : Probe) (e : LLMEngine) :
  let r := llm_initialize settings p e in
  snd r = model_available (fst r)
  /\ (active_engine (fst r) = TheGemini
      <-> ai_mode settings = "online"
          /\ snd (gemini_initialize settings p (gemini e)) = true)
  /\ (active_engine (fst r) = TheOllama ->
      snd r = snd (ollama_initialize settings p (ollama e)))
  /\ (ai_mode settings = "online" \/ ai_mode settings = "offline" ->
      router_ok (fst r)).
Proof.
  cbv zeta. split; [|split; [|split]]; [| | |apply llm_initialize_router_ok].
  - unfold llm_initialize.
    destruct (String.eqb (ai_mode settings) "online");
      [destruct (gemini_initialize settings p (gemini e)) as [g [|]]|];
      try reflexivity;
      destruct (ollama_initialize settings p (ollama e)) as [o ok]; reflexivity.
  - unfold llm_initialize.
    destruct (String.eqb (ai_mode settings) "online") eqn:E.
    + apply String.eqb_eq in E.
      destruct (gemini_initialize settings p (gemini e)) as [g [|]]; simpl.
      * tauto.
      * destruct (ollama_initialize settings p (ollama e)) as [o ok]. simpl.
        split; [discriminate | intros [_ H]; discriminate].
    + apply String.eqb_neq in E.
      destruct (ollama_initialize settings p (ollama e)) as [o ok]. simpl.
      split; [discriminate | intros [H _]; contradiction].
  - unfold llm_initialize.
    destruct (String.eqb (ai_mode settings) "online");
      [destruct (gemini_initialize settings p (gemini e)) as [g [|]]|];
      try (simpl; discriminate);
      destruct (ollama_initialize settings p (ollama e)) as [o ok]; reflexivity.
Qed.

(** X15: once initialized under a configured mode of [online] or
    [offline], the manager keeps, through any series of [switch_mode]
    calls, failed or not, a mode that names the active engine and a
    [model] that is the active engine's identifier. *)
Theorem switches_keep_router_ok (settings : Settings) (p : Probe) (e : LLMEngine)
        (ops : list (Settings * string * Probe)) :
  ai_mode settings = "online" \/ ai_mode settings = "offline" ->
  router_ok (switches ops (fst (llm_initialize settings p e))).
Proof.
  intros H. apply llm_initialize_router_ok with (p := p) (e := e) in H.
  revert H. generalize (fst (llm_initialize settings p e)). unfold switches.
  induction ops as [|op ops IH]; intros e0 H0; simpl; [assumption|].
  apply IH. now apply switch_mode_keeps_router_ok.
Qed.

(** X16: [switch_mode] never writes the manager's availability flag:
    after any series of switches the flag that the health and model-info
    endpoints report is still the answer of the last [initialize]. *)
Theorem switches_keep_flag (settings : Settings) (p : Probe) (e : LLMEngine)
        (ops : list (Settings * string * Probe)) :
  model_available (switches ops (fst (llm_initialize settings p e)))
  = snd (llm_initialize settings p e).
Proof.
  assert (H : forall e0, model_available (switches ops e0) = model_available e0).
  { unfold switches. induction ops as [|op ops IH]; intros e0; simpl; [reflexivity|].
    rewrite IH. apply switch_mode_keeps_flag. }
  rewrite H. unfold llm_initialize.
  destruct (String.eqb (ai_mode settings) "online");
    [destruct (gemini_initialize settings p (gemini e)) as [g [|]]|];
    try reflexivity;
    destruct (ollama_initialize settings p (ollama e)) as [o ok]; reflexivity.
Qed.

(** X17: the model-switch endpoint ignores the model it is asked for:
    the state it leaves and the model and availability it reports are
    the same for any two requested models. *)
Theorem switch_model_ignores_request (m1 m2 : string) (p : Probe)
        (sv : Settings * LLMEngine) :
  switch_model m1 p sv = switch_model m2 p sv.
Proof. reflexivity. Qed.

(** X18: the mode endpoint stores a mode it rejected: for a mode that
    is neither [online] nor [offline] the switch fails and the manager is
    untouched, yet the settings now carry that mode, so that the next
    [initialize], as run by the model-switch endpoint, leaves the manager
    under that mode name with Ollama active. *)
Theorem rejected_mode_is_kept (target requested : string) (p p' : Probe)
        (sv : Settings * LLMEngine) :
  target <> "online" ->
  target <> "offline" ->
  let r := set_ai_mode target p sv in
  snd r = false
  /\ snd (fst r) = snd sv
  /\ ai_mode (fst (fst r)) = target
  /\ mode (snd (fst (switch_model requested p' (fst r)))) = target
  /\ active_engine (snd (fst (switch_model requested p' (fst r)))) = TheOllama.
Proof.
  intros H1 H2. apply String.eqb_neq in H1, H2.
  unfold set_ai_mode, switch_mode. rewrite H1, H2. cbv zeta. simpl.
  repeat split; unfold switch_model, llm_initialize; simpl; rewrite H1;
    destruct (ollama_initialize _ p' (ollama (snd sv))) as [o ok]; reflexivity.
Qed.

(** * The loop over an engine that is not available *)

Lemma llm_generate_unavailable (e : LLMEngine) (w : Backend) :
  active_available e = false ->
  llm_generate e w = "Ollama not available."
  \/ llm_generate e w = "Gemini API Key missing or invalid.".
Proof.
  unfold active_available, llm_generate, ollama_generate, gemini_generate.
  destruct (active_engine e); intros ->; simpl; auto.
Qed.

Section ProviderFacts.

Variable json_loads : string -> option pyval.
Variable py_str : pyval -> string.
Variable json_dumps : pyval -> string.
Variable max_steps : nat.
Variable has_tool_executor : bool.
Variable has_on_step : bool.
Variable context : list (string * pyval).
Variable events : nat -> StepEvents.

Local Abbreviation iteration := (iteration json_loads py_str json_dumps has_tool_executor has_on_step).
Local Abbreviation loop := (loop json_loads py_str json_dumps has_tool_executor has_on_step).
Local Abbreviation run desc events :=
  (run json_loads py_str json_dumps max_steps has_tool_executor has_on_step desc context events).
Local Abbreviation on_step_error := (on_step_error has_on_step).

(** The transcript when no step of the script is handed to the tool
    executor. *)
Lemma loop_transcript_unexecuted (nums : list nat) (st : RunState) (m0 : string) :
  (forall n step,
      In n nums ->
      _parse_response json_loads (reply (events n)) n = Ok step ->
      executed has_tool_executor step = false) ->
  messages st
  = m0 :: repeat corrective_message
            (List.length (filter (fun s => is_None (action s)) (steps (task st)))) ->
  match loop events nums st with
  | Continue st' | Break st' =>
      messages st'
      = m0 :: repeat corrective_message
                (List.length (filter (fun s => is_None (action s)) (steps (task st'))))
  | Raised _ _ => True
  end.
Proof.
  revert st. induction nums as [|n nums IH]; intros st Hx Hm; simpl; [assumption|].
  pose proof (iteration_trace json_loads py_str json_dumps has_tool_executor has_on_step
                              n (events n) st) as Hi.
  destruct (iteration n (events n) st) as [st1|st1|e st1]; [| |exact I].
  - destruct Hi as (step & Hp & _ & Hs & Hmsg & _).
    apply IH; [intros m s Hin; apply Hx; now right|].
    rewrite Hmsg, Hs, Hm, filter_app, List.length_app.
    unfold act_messages, acted. rewrite (Hx n step (or_introl eq_refl) Hp). simpl.
    destruct (is_None (action step)); simpl.
    + rewrite repeat_app. reflexivity.
    + now rewrite !app_nil_r, Nat.add_0_r.
  - destruct Hi as (step & d & _ & Ht & _ & Hs & Hmsg & _).
    rewrite Hmsg, Hs, Hm, filter_app, List.length_app. simpl.
    unfold terminal, eq_str in Ht.
    destruct (action step); try discriminate. simpl. now rewrite Nat.add_0_r.
Qed.

(** X19: when building the system prompt from the context does not
    raise and at every step the reply is what [LLMEngine.generate]
    gives with an active engine that is not available, the run spends
    its whole budget on the engine's fixed text: [max_steps] provider
    calls, [max_steps] steps whose thought is that text and whose action
    is unset, one corrective message each in the transcript, and a task
    in error with the max-steps text (the callback, if given, not
    raising). *)
Theorem unavailable_engine_wastes_budget
        (desc : string) (engines : nat -> LLMEngine) (worlds : nat -> Backend) :
  prompt_ok py_str context ->
  (forall n, 1 <= n <= max_steps ->
             reply (events n) = llm_generate (engines n) (worlds n)
             /\ active_available (engines n) = false
             /\ on_step_error (events n) = None) ->
  exists st,
    run desc events = Returned st
    /\ state (task st) = ERROR
    /\ error (task st) = Some max_steps_message
    /\ List.length (prompts st) = max_steps
    /\ List.length (steps (task st)) = max_steps
    /\ Forall (fun s => action s = PNone
                        /\ observation s = None
                        /\ (thought s = PStr "Ollama not available."
                            \/ thought s = PStr "Gemini API Key missing or invalid."))
              (steps (task st))
    /\ messages st = first_message desc :: repeat corrective_message max_steps.
Proof.
  intros [prompt Hb] H.
  assert (Hparse : forall n, 1 <= n <= max_steps ->
            exists t, (t = "Ollama not available."
                       \/ t = "Gemini API Key missing or invalid.")
                      /\ _parse_response json_loads (reply (events n)) n
                         = Ok (mkStep n (PStr t) PNone PNone None)).
  { intros n Hn. destruct (H n Hn) as (Hr & Ha & _).
    exists (reply (events n)).
    destruct (llm_generate_unavailable (engines n) (worlds n) Ha) as [E|E];
      rewrite <- Hr in E; rewrite E; split; auto. }
  assert (Hin : forall n, In n (seq 1 max_steps) -> 1 <= n <= max_steps)
    by (intros n Hn; apply in_seq in Hn; lia).
  destruct (loop_quiet json_loads py_str json_dumps has_tool_executor has_on_step events
              (seq 1 max_steps) (initial desc)) as (st0 & E & Hp & Hs & Hc).
  { apply Forall_forall. intros n Hn. apply Hin in Hn.
    destruct (Hparse n Hn) as (t & _ & Ht). destruct (H n Hn) as (_ & _ & Hcb).
    split; [|assumption]. eexists. split; [exact Ht | reflexivity]. }
  pose proof (loop_trace json_loads py_str json_dumps has_tool_executor has_on_step events
                         (seq 1 max_steps) (initial desc)) as Htr.
  pose proof (loop_transcript_unexecuted (seq 1 max_steps) (initial desc)
                                         (first_message desc)) as Hmsg.
  rewrite E in Htr, Hmsg.
  destruct Htr as (ss & Hf & Hss & _ & _). simpl in Hss, Hp, Hs.
  rewrite length_seq in Hp, Hs.
  assert (Hall : Forall (fun s => action s = PNone
                                  /\ observation s = None
                                  /\ (thought s = PStr "Ollama not available."
                                      \/ thought s = PStr "Gemini API Key missing or invalid."))
                        ss).
  { clear -Hf Hparse Hin. induction Hf as [|n s nums ss Hs _ IH]; constructor.
    - destruct Hs as (step & Hq & _ & ->).
      destruct (Hparse n (Hin n (or_introl eq_refl))) as (t & Ht & Hq').
      rewrite Hq' in Hq. inversion Hq. subst step. unfold acted, executed. simpl.
      destruct Ht as [-> | ->]; auto.
    - apply IH. intros m Hm. apply Hin. now right. }
  assert (Hn : state (task st0) <> COMPLETED) by (apply Hc; simpl; congruence).
  exists (on_task final_check st0). unfold Agent.run. rewrite Hb, E.
  split; [reflexivity|].
  destruct (final_check_state (task st0)) as [[Ec _]|[_ Ef]]; [contradiction|].
  cbn [task on_task prompts messages]. rewrite Ef.
  cbn [state error steps set_error set_state]. rewrite Hss.
  repeat split; try assumption; try (rewrite <- Hss; assumption).
  rewrite Hmsg.
  - rewrite Hss. f_equal. f_equal.
    rewrite <- Hs, Hss. clear -Hall.
    induction Hall as [|s ss (Ha & _) _ IH]; [reflexivity|].
    simpl. rewrite Ha. simpl. now rewrite IH.
  - intros n step Hn' Hq.
    destruct (Hparse n (Hin n Hn')) as (t & _ & Hq').
    rewrite Hq' in Hq. inversion Hq. reflexivity.
  - reflexivity.
Qed.

End ProviderFacts.

(** * Tool calls and quick responses *)

Lemma find_from_present (c : ascii) (s : string) (i : Z) :
  contains c s = true -> (i <= find_from c s i)%Z.
Proof.
  revert i. induction s as [|a s IH]; intros i H; simpl in *; [discriminate|].
  destruct (Ascii.eqb a c); [lia|]. simpl in H. specialize (IH (i + 1)%Z H). lia.
Qed.

Lemma substring_none (n : nat) (s : string) : substring n 0 s = "".
Proof.
  revert n. induction s as [|a s IH]; intros [|n]; simpl; auto.
Qed.

Lemma slice_empty (s : string) (start stop : Z) :
  (stop <= start)%Z -> slice s start stop = "".
Proof.
  intros H. unfold slice. replace (Z.to_nat (stop - start)) with 0 by lia.
  apply substring_none.
Qed.

(** X20: the tool-calling convention reads the same object as the
    response parser: whenever [generate_with_tools] returns a tool call,
    the raw response is the reply itself, and [_parse_response] finds on
    that reply the very object the tool and its parameters were read
    from; and on a reply without a JSON object it returns the reply as
    text.  ([json.loads] rejects the empty text.) *)
Theorem tool_reply_agrees_with_parser
        (json_loads : string -> option pyval) (response : string) (n : nat) :
  json_loads "" = None ->
  (forall t ps raw,
      tool_reply json_loads response = ToolCall t ps raw ->
      raw = response
      /\ exists d,
          dict_lookup "tool" d = Some t
          /\ ps = dict_get d "parameters" (PDict [])
          /\ _parse_response json_loads response n
             = Ok (mkStep n (dict_get d "thought" (PStr ""))
                          (dict_get d "action" PNone)
                          (dict_get d "action_input" (PDict [])) None))
  /\ (no_json_object json_loads response ->
      tool_reply json_loads response = TextReply response).
Proof.
  intros Hempty. split.
  - intros t ps raw. unfold tool_reply, _parse_response. cbv zeta.
    destruct (contains "{"%char response) eqn:Ho; [|discriminate]. simpl.
    destruct (contains "}"%char response); [|discriminate].
    pose proof (find_from_present "{"%char response 0 Ho) as Hs. fold (find "{"%char response) in Hs.
    destruct (Z.ltb_spec (find "{"%char response) (rfind "}"%char response + 1)) as [Hlt|Hge].
    + replace (0 <=? find "{"%char response)%Z with true by (symmetry; now apply Z.leb_le).
      simpl.
      destruct (json_loads (slice response (find "{"%char response)
                                  (rfind "}"%char response + 1))) as [v|];
        [destruct v as [| | | | |d]|];
        cbv iota beta; try (intros E; discriminate E).
      destruct (dict_lookup "tool" d) as [t'|] eqn:Ht; [|discriminate].
      intros E. inversion E. subst. split; [reflexivity|]. exists d. auto.
    + rewrite (slice_empty response _ _ Hge), Hempty. discriminate.
  - intros Hno. unfold tool_reply.
    destruct (contains "{"%char response && contains "}"%char response) eqn:Hc;
      [|reflexivity].
    apply andb_prop in Hc as [Ho _].
    destruct Hno as [(pre & post & -> & H1 & H2)|(pre & mid & post & -> & H1 & H2 & H3)].
    + pose proof (no_span_guard pre post H1 H2) as Hg. cbv zeta in Hg.
      pose proof (find_from_present "{"%char (pre ++ post) 0 Ho) as Hs.
      fold (find "{"%char (pre ++ post)) in Hs.
      replace (0 <=? find "{"%char (pre ++ post))%Z with true in Hg
        by (symmetry; now apply Z.leb_le).
      simpl in Hg. apply Z.ltb_ge in Hg.
      now rewrite (slice_empty _ _ _ Hg), Hempty.
    + pose proof (span_indices pre mid post H1 H2) as Hsp. cbv zeta in Hsp.
      destruct Hsp as (_ & _ & Hsl). now rewrite Hsl, H3.
Qed.

Lemma py_lstrip_head (s : string) :
  py_lstrip s = "" \/ starts_word (py_lstrip s) = true.
Proof.
  induction s as [|c s IH]; simpl; [now left|].
  destruct (is_space c) eqn:E; [assumption|]. right. simpl. now rewrite E.
Qed.

Lemma py_rstrip_head (s : string) :
  starts_word s = true -> starts_word (py_rstrip s) = true.
Proof.
  destruct s as [|c s]; simpl; [discriminate|].
  intros H. apply negb_true_iff in H. rewrite H. simpl. now rewrite H.
Qed.

Lemma py_rstrip_fixed (s : string) : py_rstrip (py_rstrip s) = py_rstrip s.
Proof.
  induction s as [|c s IH]; simpl; [reflexivity|].
  destruct (is_space c && String.eqb (py_rstrip s) "") eqn:E; [reflexivity|].
  simpl. now rewrite IH, E.
Qed.

(** X21: on a reply that mentions [command] and is some text without
    an opening brace, an object from the first opening to the last
    closing brace, and some text without a closing brace,
    [quick_response] gives the command and the parameters of the object,
    [None] and the empty object standing for a missing one, and for its
    message the text in front of the object, stripped, so that the
    message has no whitespace at either end. *)
Theorem quick_reply_command
        (json_loads : string -> option pyval) (pre mid post : string)
        (data : list (string * pyval)) :
  contains "{"%char pre = false ->
  contains "}"%char post = false ->
  occurs "command" (pre ++ String "{"%char (mid ++ String "}"%char post)) = true ->
  json_loads (String "{"%char (mid ++ String "}"%char "")) = Some (PDict data) ->
  quick_reply json_loads (pre ++ String "{"%char (mid ++ String "}"%char post))
  = QuickCommand (dict_get data "command" PNone)
                 (dict_get data "params" (PDict []))
                 (py_strip pre)
  /\ (py_strip pre = "" \/ starts_word (py_strip pre) = true)
  /\ py_rstrip (py_strip pre) = py_strip pre.
Proof.
  intros Hpre Hpost Hocc Hload.
  pose proof (span_indices pre mid post Hpre Hpost) as Hsp. cbv zeta in Hsp.
  destruct Hsp as (Hf & Hr & Hsl).
  split; [|split].
  - unfold quick_reply. cbv zeta. rewrite Hocc, Hsl, Hload.
    replace (contains "{"%char (pre ++ String "{"%char (mid ++ String "}"%char post)))
      with true.
    + simpl andb. cbv iota. f_equal. rewrite Hf.
      destruct pre as [|c pre]; [reflexivity|].
      replace (0 <? Z.of_nat (length (String c pre)))%Z with true
        by (symmetry; apply Z.ltb_lt; simpl; lia).
      unfold slice. rewrite Z.sub_0_r, Nat2Z.id. simpl Z.to_nat.
      now rewrite substring_take.
    + symmetry. clear. induction pre as [|c pre IH]; simpl; [reflexivity|].
      rewrite IH. apply orb_true_r.
  - unfold py_strip. destruct (py_lstrip_head pre) as [-> | H]; [now left|].
    right. now apply py_rstrip_head.
  - apply py_rstrip_fixed.
Qed.

(** * The agent endpoint *)


Section ServerFacts.

Variable json_loads : string -> option pyval.
Variable py_str : pyval -> string.
Variable json_dumps : pyval -> string.
Variable exn_text : exn -> string.
Variable has_tool_executor : bool.
Variable events : nat -> StepEvents.

Local Abbreviation iteration := (iteration json_loads py_str json_dumps has_tool_executor true).
Local Abbreviation loop := (loop json_loads py_str json_dumps has_tool_executor true).





End ServerFacts.


(** * The list of interactive elements *)

Lemma substring_twice (n : nat) (s : string) :
  substring 0 n (substring 0 n s) = substring 0 n s.
Proof.
  revert n. induction s as [|c s IH]; intros [|n]; simpl; auto. now rewrite IH.
Qed.

Lemma substring_empty_iff (n : nat) (s : string) :
  String.eqb (substring 0 (S n) s) "" = String.eqb s "".
Proof. destruct s; reflexivity. Qed.

(** X23: the text and the link target of an element reach the prompt
    through their first 50 characters only: cutting them to 50
    characters beforehand gives the same description. *)
Theorem describe_element_cuts (py_str : pyval -> string) (t h : string)
        (el : list (string * pyval)) :
  describe_element py_str (("text", PStr t) :: ("href", PStr h) :: el)
  = describe_element py_str (("text", PStr (substring 0 50 t))
                               :: ("href", PStr (substring 0 50 h)) :: el).
Proof.
  unfold describe_element, with_field, dict_get. simpl dict_lookup. cbv zeta.
  unfold truthy, py_prefix.
  rewrite !substring_twice, !substring_empty_iff. reflexivity.
Qed.

Lemma lookup_string (el : list (string * pyval)) (k : string) :
  (forall key v, In (key, v) el -> exists s, v = PStr s) ->
  dict_get el k PNone = PNone \/ exists s, dict_get el k PNone = PStr s.
Proof.
  unfold dict_get. induction el as [|[key v] el IH]; intros H; simpl; [now left|].
  destruct (String.eqb key k).
  - right. apply (H key v). now left.
  - apply IH. intros key' v' Hin. apply (H key' v'). now right.
Qed.

Lemma describe_string_element (py_str : pyval -> string) (el : list (string * pyval)) :
  (forall key v, In (key, v) el -> exists s, v = PStr s) ->
  exists line, describe_element py_str el = Some line.
Proof.
  intros H. unfold describe_element. cbv zeta.
  destruct (lookup_string el "text" H) as [-> | (s & ->)];
    destruct (lookup_string el "href" H) as [-> | (s' & ->)]; simpl;
    repeat match goal with
           | |- context [if ?b then _ else _] => destruct b
           end; eauto.
Qed.

(** X24: on elements all of whose values are strings
    [_format_elements] does not raise; it gives the text that stands for
    no elements for the empty list, and otherwise one description for
    each element, in order, on lines of their own. *)
Theorem format_string_elements (py_str : pyval -> string)
        (elements : list (list (string * pyval))) :
  Forall (fun el => forall key v, In (key, v) el -> exists s, v = PStr s) elements ->
  (elements = [] ->
   _format_elements py_str elements = Some "No interactive elements detected")
  /\ (elements <> [] ->
      exists lines,
        _format_elements py_str elements = Some (join nl lines)
        /\ map Some lines = map (describe_element py_str) elements).
Proof.
  intros H. split; [now intros ->|]. intros Hne.
  assert (Hl : exists lines, map Some lines = map (describe_element py_str) elements
                             /\ all_some (map (describe_element py_str) elements)
                                = Some lines).
  { clear Hne. induction H as [|el els Hel _ (lines & IH1 & IH2)].
    - exists []. auto.
    - destruct (describe_string_element py_str el Hel) as (line & E).
      exists (line :: lines). simpl. rewrite E, IH1, IH2. auto. }
  destruct Hl as (lines & H1 & H2). exists lines.
  destruct elements as [|el els]; [contradiction|].
  unfold _format_elements. now rewrite H2.
Qed.

(** X25: [GeminiEngine.initialize] succeeds exactly when the settings
    hold a key that is not empty and the client library accepts it; it
    then marks the engine available.  When it fails it leaves the
    availability flag and the client as they were, so an engine that was
    available stays marked available after its key is gone; the model
    name never changes. *)
Theorem gemini_initialize_outcome (settings : Settings) (p : Probe) (g : GeminiEngine) :
  let r := gemini_initialize settings p g in
  (snd r = true <-> no_key (gemini_api_key settings) = false /\ genai_accepts p = true)
  /\ (snd r = true -> gemini_available (fst r) = true)
  /\ (snd r = false ->
      gemini_available (fst r) = gemini_available g
      /\ gemini_client (fst r) = gemini_client g)
  /\ api_key (fst r) = gemini_api_key settings
  /\ model_name (fst r) = model_name g.
Proof.
  unfold gemini_initialize. simpl.
  destruct (no_key (gemini_api_key settings)); simpl.
  - repeat split; auto; try discriminate. intros [H _]. discriminate.
  - destruct (genai_accepts p); simpl; repeat split; auto; try discriminate.
    intros [_ H]. discriminate.
Qed.

(** * The system prompt *)

Lemma describe_element_raises (py_str : pyval -> string) (el : list (string * pyval)) :
  match describe_element py_str el with
  | Some _ => element_ok (PDict el) = true
  | None => element_ok (PDict el) = false
  end.
Proof.
  unfold describe_element, element_ok, sliceable, py_prefix. cbv zeta.
  destruct (dict_get el "text" PNone) as [|[|]|z|s|[|? ?]|[|? ?]];
    destruct (dict_get el "href" PNone) as [|[|]|z'|s'|[|? ?]|[|? ?]];
    cbn [truthy negb andb];
    try destruct (z =? 0)%Z; try destruct (z' =? 0)%Z;
    try destruct (String.eqb s ""); try destruct (String.eqb s' "");
    reflexivity.
Qed.

Lemma describe_all_raises (py_str : pyval -> string) (elements : list pyval) :
  match describe_all py_str elements with
  | Ok _ => forallb element_ok elements = true
  | Raise _ => forallb element_ok elements = false
  end.
Proof.
  induction elements as [|v elements IH]; [reflexivity|].
  destruct v as [|b|z|s|l|el]; try reflexivity.
  cbn [describe_all forallb].
  pose proof (describe_element_raises py_str el) as He.
  destruct (describe_element py_str el) as [line|]; rewrite He; [|reflexivity].
  destruct (describe_all py_str elements); exact IH.
Qed.

Lemma build_system_prompt_raises (py_str : pyval -> string)
      (context : list (string * pyval)) :
  match build_system_prompt py_str context with
  | Ok _ => context_ok context = true
  | Raise _ => context_ok context = false
  end.
Proof.
  unfold build_system_prompt, context_ok, format_context_elements,
    summarize_context_content.
  destruct (dict_get context "interactive_elements" (PList [])) as [|b|z|s|items|d];
    try reflexivity.
  - rewrite substring_empty_iff.
    destruct (String.eqb s ""); [|reflexivity].
    destruct (dict_get context "content" (PStr "")) as [|[|]|z|c|[|? ?]|[|? ?]];
      cbn [truthy negb andb]; try destruct (z =? 0)%Z; reflexivity.
  - pose proof (describe_all_raises py_str (firstn 30 items)) as Ha.
    destruct (firstn 30 items) as [|v rest] eqn:E.
    + destruct (dict_get context "content" (PStr "")) as [|[|]|z|c|[|? ?]|[|? ?]];
        cbn [truthy negb andb forallb]; try destruct (z =? 0)%Z; reflexivity.
    + destruct (describe_all py_str (v :: rest)); rewrite Ha; [|reflexivity].
      destruct (dict_get context "content" (PStr "")) as [|[|]|z|c|[|? ?]|[|? ?]];
        cbn [truthy negb andb]; try destruct (z =? 0)%Z; reflexivity.
Qed.

(** X26: building the system prompt from a context raises in these
    cases and no other: [interactive_elements] is neither a list nor the
    empty text; one of its first 30 entries is no object, or is an
    object whose [text] or [href] is truthy and is neither a text nor a
    list; or [content] is truthy and is no text.  Entries after the
    thirtieth are never looked at. *)
Theorem prompt_built_iff_context_ok (py_str : pyval -> string)
        (context : list (string * pyval)) :
  (prompt_ok py_str context <-> context_ok context = true)
  /\ ((exists e, build_system_prompt py_str context = Raise e)
      <-> context_ok context = false)
  /\ (forall items more,
         List.length items = 30 ->
         build_system_prompt py_str
           (("interactive_elements", PList (items ++ more)) :: context)
         = build_system_prompt py_str (("interactive_elements", PList items) :: context)).
Proof.
  pose proof (build_system_prompt_raises py_str context) as H.
  unfold prompt_ok. split; [|split].
  - destruct (build_system_prompt py_str context) as [prompt|e]; rewrite H.
    + split; eauto.
    + split; [intros [prompt Hp]|]; discriminate.
  - destruct (build_system_prompt py_str context) as [prompt|e]; rewrite H.
    + split; [intros [e He]|]; discriminate.
    + split; eauto.
  - intros items more Hl.
    assert (E : firstn 30 (items ++ more)%list = firstn 30 items).
    { rewrite <- Hl, firstn_app, Nat.sub_diag, firstn_all. cbn [firstn].
      apply app_nil_r. }
    unfold build_system_prompt, dict_get. cbn [dict_lookup].
    change (String.eqb "interactive_elements" "interactive_elements") with true.
    change (String.eqb "interactive_elements" "content") with false.
    cbv iota. unfold format_context_elements. rewrite E. reflexivity.
Qed.

Lemma describe_all_objects (py_str : pyval -> string)
      (els : list (list (string * pyval))) :
  describe_all py_str (map PDict els)
  = match all_some (map (describe_element py_str) els) with
    | Some lines => Ok lines
    | None => Raise SliceError
    end.
Proof.
  induction els as [|el els IH]; [reflexivity|].
  cbn [map describe_all all_some].
  destruct (describe_element py_str el) as [line|]; [|reflexivity].
  rewrite IH. now destruct (all_some (map (describe_element py_str) els)).
Qed.

(** X28: on a list of objects, the text [run] puts into the prompt for
    the interactive elements is what [_format_elements] gives for the
    first 30 of them, and [run] raises exactly when [_format_elements]
    does on those. *)
Theorem format_context_elements_objects (py_str : pyval -> string)
        (els : list (list (string * pyval))) :
  format_context_elements py_str (PList (map PDict els))
  = match _format_elements py_str (firstn 30 els) with
    | Some text => Ok text
    | None => Raise SliceError
    end.
Proof.
  unfold format_context_elements, _format_elements.
  rewrite firstn_map.
  destruct (firstn 30 els) as [|el rest]; [reflexivity|].
  pose proof (describe_all_objects py_str (el :: rest)) as H.
  cbn [map] in *. rewrite H.
  now destruct (all_some (describe_element py_str el
                          :: map (describe_element py_str) rest)).
Qed.

(** X27: a page one of whose links has a number for its text makes
    [run] raise while it builds the system prompt, whatever the provider,
    the budget and the callback: the provider is never called, the task
    has no step, and the agent endpoint answers with the identifier and
    the status [error], no step, and the text of the exception. *)
Theorem unsliceable_text_fails_before_provider
        (json_loads : string -> option pyval) (py_str json_dumps : pyval -> string)
        (exn_text : exn -> string) (max_steps : nat)
        (has_tool_executor has_on_step : bool) (uuid desc : string)
        (request_max_steps : Z) (events : nat -> StepEvents) :
  run json_loads py_str json_dumps max_steps has_tool_executor has_on_step desc
      Sample.numbered_link events
  = Thrown SliceError (created desc)
  /\ provider_calls (run json_loads py_str json_dumps max_steps has_tool_executor
                         has_on_step desc Sample.numbered_link events) = 0
  /\ steps (task (created desc)) = []
  /\ execute_agent json_loads py_str json_dumps exn_text has_tool_executor uuid desc
                   Sample.numbered_link request_max_steps events
     = mkResponse "error" "error" [] PNone (Some (exn_text SliceError)).
Proof. repeat split. Qed.

(** * Worked examples *)

Lemma summarize_content_bounded_witness :
  (Z.of_nat (length (_summarize_content "  hello   world  foo " 8)) <= 8 + 3)%Z.
Proof.
  destruct (summarize_content_bounded "  hello   world  foo " 8) as [[H _]|[_ H]];
    [lia | discriminate H | exact H].
Defined.

Lemma summarize_content_blank_witness :
  _summarize_content "   " 5 = "".
Proof.
  apply (summarize_content_blank "   " 5); [lia|]. split; [discriminate | reflexivity].
Defined.

Lemma summarize_content_fixed_witness :
  _summarize_content "hello world" 2000 = "hello world".
Proof.
  apply (summarize_content_fixed ["hello"; "world"] 2000).
  - discriminate.
  - repeat constructor.
  - simpl. lia.
Defined.

Lemma run_outcome_by_steps_witness :
  exists st,
    Scenario.run 3 true false Scenario.instruction Sample.click_then_answer = Returned st
    /\ state (task st) = COMPLETED
    /\ exists ss s d,
        steps (task st) = (ss ++ [s])%list
        /\ Forall (fun x => terminal x = false) ss
        /\ terminal s = true
        /\ action_input s = PDict d
        /\ result (task st) = dict_get d "message" (PStr "Task completed").
Proof.
  eexists. split; [reflexivity|].
  destruct (run_outcome_by_steps Json.loads Json.str Json.dumps 3 true false
              Scenario.page Sample.click_then_answer Scenario.instruction _ eq_refl)
    as [H | (H & _)]; [exact H | discriminate H].
Defined.

Lemma run_observations_witness :
  exists st,
    Scenario.run 3 true false Scenario.instruction Sample.click_then_answer = Returned st
    /\ Forall (fun s => observed s = executed true s && negb (terminal s))
              (steps (task st)).
Proof.
  eexists. split; [reflexivity|].
  exact (proj1 (run_observations Json.loads Json.str Json.dumps 3 true false
                  Scenario.page Sample.click_then_answer Scenario.instruction _ eq_refl)).
Defined.


Lemma unexecuted_action_repeats_prompt_witness :
  exists st',
    iteration Json.loads Json.str Json.dumps false false 1
              (Scenario.calm Scenario.reply_click) (initial Scenario.instruction)
    = Continue st'
    /\ steps (task st') = [Sample.click_step 1]
    /\ messages st' = [first_message Scenario.instruction]
    /\ prompts (think (Scenario.calm Scenario.reply_click) st')
       = [first_message Scenario.instruction; first_message Scenario.instruction].
Proof.
  apply (unexecuted_action_repeats_prompt Json.loads Json.str Json.dumps false false 1
           (Scenario.calm Scenario.reply_click) (Scenario.calm Scenario.reply_click)
           (initial Scenario.instruction) (Sample.click_step 1));
    reflexivity.
Defined.

Lemma run_transcript_without_executor_witness :
  exists st,
    Scenario.run 2 false false Scenario.instruction
                 (Scenario.always (Scenario.calm Scenario.reply_click))
    = Returned st
    /\ messages st = [first_message Scenario.instruction].
Proof.
  eexists. split; [reflexivity|].
  exact (run_transcript_without_executor Json.loads Json.str Json.dumps 2 false false
           Scenario.page
           (Scenario.always (Scenario.calm Scenario.reply_click))
           Scenario.instruction _ eq_refl eq_refl).
Defined.

Lemma switches_keep_router_ok_witness :
  router_ok (switches Sample.mode_changes
                      (fst (llm_initialize Scenario.settings Scenario.nothing_up
                                           Scenario.engine))).
Proof.
  apply switches_keep_router_ok. left. reflexivity.
Defined.

Lemma rejected_mode_is_kept_witness :
  snd (set_ai_mode "turbo" Scenario.local_only (Scenario.settings, Scenario.engine)) = false
  /\ ai_mode (fst (fst (set_ai_mode "turbo" Scenario.local_only
                                    (Scenario.settings, Scenario.engine)))) = "turbo"
  /\ mode (snd (fst (switch_model "llama3.2:1b" Scenario.local_only
                        (fst (set_ai_mode "turbo" Scenario.local_only
                                          (Scenario.settings, Scenario.engine))))))
     = "turbo".
Proof.
  pose proof (rejected_mode_is_kept "turbo" "llama3.2:1b" Scenario.local_only
                Scenario.local_only (Scenario.settings, Scenario.engine)) as H.
  cbv zeta in H. destruct H as (H1 & _ & H3 & H4 & _); [discriminate | discriminate |].
  exact (conj H1 (conj H3 H4)).
Defined.

Lemma unavailable_engine_wastes_budget_witness :
  exists st,
    Scenario.run 3 true false Scenario.instruction Sample.engine_down = Returned st
    /\ state (task st) = ERROR
    /\ List.length (steps (task st)) = 3
    /\ messages st = first_message Scenario.instruction :: repeat corrective_message 3.
Proof.
  destruct (unavailable_engine_wastes_budget Json.loads Json.str Json.dumps 3 true false
              Scenario.page Sample.engine_down Scenario.instruction
              (fun _ => Scenario.engine) (fun _ => Sample.world))
    as (st & Hr & Hs & _ & _ & Hl & _ & Hm).
  - eexists. reflexivity.
  - intros n _. repeat split; reflexivity.
  - exists st. repeat split; assumption.
Defined.

Lemma tool_reply_agrees_with_parser_witness :
  tool_reply Json.loads Sample.reply_tool
  = ToolCall (PStr "click") (PDict [("selector", PStr "#login")]) Sample.reply_tool
  /\ exists d,
      dict_lookup "tool" d = Some (PStr "click")
      /\ _parse_response Json.loads Sample.reply_tool 1
         = Ok (mkStep 1 (dict_get d "thought" (PStr "")) (dict_get d "action" PNone)
                      (dict_get d "action_input" (PDict [])) None).
Proof.
  split; [reflexivity|].
  destruct (tool_reply_agrees_with_parser Json.loads Sample.reply_tool 1 eq_refl)
    as [H _].
  destruct (H (PStr "click") (PDict [("selector", PStr "#login")]) Sample.reply_tool
              eq_refl) as (_ & d & H1 & _ & H3).
  exists d. split; assumption.
Defined.

Lemma quick_reply_command_witness :
  quick_reply Json.loads Sample.reply_command
  = QuickCommand (PStr "scroll") (PDict [("direction", PStr "down")]) "On it:".
Proof.
  exact (proj1 (quick_reply_command Json.loads " On it: " Sample.command_fields " ok"
                  [("command", PStr "scroll");
                   ("params", PDict [("direction", PStr "down")])]
                  eq_refl eq_refl eq_refl eq_refl)).
Defined.

Lemma format_string_elements_witness :
  exists lines,
    _format_elements Json.str Sample.elements = Some (join nl lines)
    /\ List.length lines = 2.
Proof.
  destruct (format_string_elements Json.str Sample.elements) as [_ H].
  - repeat constructor; intros key v Hin; simpl in Hin;
      repeat (destruct Hin as [Hin|Hin]; [inversion Hin; eexists; reflexivity|]);
      contradiction.
  - destruct (H ltac:(discriminate)) as (lines & H1 & H2).
    exists lines. split; [assumption|].
    apply (f_equal (@List.length (option string))) in H2.
    now rewrite !length_map in H2.
Defined.
